(** * Order tracking page: status transitions, projection sync, search

    A shallow embedding of [src/app/orders/tracking-orders/page.tsx]
    (the [TrackingOrders] component) and of the document store it talks to.

    Conventions of the model:
    - JavaScript numbers that the page computes with (quantities, prices,
      amounts) are integers, modelled as [Z]; on integers of the safe range
      [*], [-] and [<] of JavaScript are exact.
    - A Firestore collection read by a query is a list in the order the
      query returns its documents; the [orders] collection, which is only
      read and written by document id, is a finite map.
    - A transaction buffers its writes and applies them, in order, when the
      update function returns; a [throw] inside it discards the buffer.
      Reads see the store as it is, not the buffer.
    - One call of [handleStatusUpdate] or [saveTrackingOrder] reads the
      client clock once: every [new Date()] of the call is the same [now].
    - The stock query is a filter on size and varieties. Building it with
      an empty array of varieties is refused by the SDK, which the model
      has; a bound of the SDK on the length of that array is not modelled.
    - Strings are strings of ASCII characters, on which [toLowerCase],
      [includes] and [slice] of JavaScript are the functions below; what is
      proved of search is stated for ASCII ids, names and terms. *)

From Stdlib Require Import ZArith String Ascii List Bool Lia.
From stdpp Require Import base option list strings gmap.
Import ListNotations.

Local Open Scope string_scope.
Local Open Scope list_scope.
Local Open Scope Z_scope.

(** ** Data model *)

(** [new Date()]: an instant together with its [toISOString()] rendering. *)
Record Date := mkDate { epochMs : Z; toISOString : string }.

(** What a timestamp field of a [tracking_orders] document holds, by the
    expression that produced it. *)
Inductive FieldTime :=
| ServerTime (t : Z)            (* serverTimestamp(), resolved at the write *)
| DateOfString (s : string)     (* new Date(s) *)
| DateNow (d : Date).           (* new Date() *)

Module UserDetails.
Record t := mk { firstName : string; lastName : string }.
End UserDetails.

Module Item.
Record t := mk {
  cartId : string;
  productSize : string;
  productVarieties : list string;
  productQuantity : Z;
  productPrice : Z }.
End Item.

Module OrderDetails.
Record t := mk {
  pickupTime : string;
  pickupDate : string;
  status : string;
  totalAmount : Z;
  paymentMethod : string;
  paymentStatus : option string;
  gcashReference : option string;
  createdAt : string;
  updatedAt : option string;
  (* not in the interface, written by handleStatusUpdate *)
  completedAt : option string }.

Definition set_status (s : string) (d : t) : t :=
  mk (pickupTime d) (pickupDate d) s (totalAmount d) (paymentMethod d)
     (paymentStatus d) (gcashReference d) (createdAt d) (updatedAt d)
     (completedAt d).
Definition set_updatedAt (u : string) (d : t) : t :=
  mk (pickupTime d) (pickupDate d) (status d) (totalAmount d)
     (paymentMethod d) (paymentStatus d) (gcashReference d) (createdAt d)
     (Some u) (completedAt d).
Definition set_completedAt (c : string) (d : t) : t :=
  mk (pickupTime d) (pickupDate d) (status d) (totalAmount d)
     (paymentMethod d) (paymentStatus d) (gcashReference d) (createdAt d)
     (updatedAt d) (Some c).
End OrderDetails.

(** A document of the [orders] collection. *)
Module OrderDoc.
Record t := mk {
  userId : string;
  orderDetails : OrderDetails.t;
  items : list Item.t }.
End OrderDoc.

(** An element of the page's [orders] state: the document's data with its
    id, its reference and the resolved customer. *)
Module Order.
Record t := mk {
  id : string;
  userId : string;
  userDetails : option UserDetails.t;
  orderDetails : OrderDetails.t;
  items : list Item.t;
  ref : option string }.
End Order.

Module Stock.
Record t := mk {
  id : string;
  sizeName : string;
  varieties : list string;
  quantity : Z;
  lastUpdated : Date }.
End Stock.

Module StockHistory.
Record t := mk {
  varieties : list string;
  sizeName : string;
  type : string;
  quantity : Z;
  previousStock : Z;
  currentStock : Z;
  date : Date;
  updatedBy : string;
  remarks : string;
  stockId : string;
  isDeleted : bool }.
End StockHistory.

Module SaleItem.
Record t := mk {
  size : string;
  varieties : list string;
  quantity : Z;
  price : Z;
  subtotal : Z }.
End SaleItem.

Module Sale.
Record t := mk {
  orderId : string;
  amount : Z;
  date : Date;
  items : list SaleItem.t;
  paymentMethod : string;
  customerName : string }.
End Sale.

Module TrackingOrder.
Record t := mk {
  orderId : string;
  userId : string;
  customerName : string;
  paymentMethod : string;
  paymentStatus : string;
  orderStatus : string;
  createdAt : FieldTime;
  updatedAt : FieldTime;
  pickupTime : string;
  pickupDate : string;
  totalAmount : Z;
  items : list Item.t }.

Definition set_createdAt (c : FieldTime) (d : t) : t :=
  mk (orderId d) (userId d) (customerName d) (paymentMethod d)
     (paymentStatus d) (orderStatus d) c (updatedAt d) (pickupTime d)
     (pickupDate d) (totalAmount d) (items d).
Definition set_updatedAt (u : FieldTime) (d : t) : t :=
  mk (orderId d) (userId d) (customerName d) (paymentMethod d)
     (paymentStatus d) (orderStatus d) (createdAt d) u (pickupTime d)
     (pickupDate d) (totalAmount d) (items d).
End TrackingOrder.

(** The store: the collections the page reads and writes. *)
Record Db := mkDb {
  orders : gmap string OrderDoc.t;
  stocks : list Stock.t;
  stockHistory : list StockHistory.t;
  sales : list Sale.t;
  tracking_orders : list TrackingOrder.t }.

(** ** Strings *)

(** [s.toLowerCase()] on ASCII text: the capitals 'A'..'Z' become small
    letters, every other character stays. *)
Definition lower_ascii (c : ascii) : ascii :=
  let n := nat_of_ascii c in
  if ((65 <=? n)%nat && (n <=? 90)%nat)%bool then ascii_of_nat (n + 32) else c.

Fixpoint toLowerCase (s : string) : string :=
  match s with
  | EmptyString => EmptyString
  | String c s' => String (lower_ascii c) (toLowerCase s')
  end.

Fixpoint startsWith (s t : string) {struct t} : bool :=
  match t, s with
  | EmptyString, _ => true
  | String a t', String b s' => Ascii.eqb a b && startsWith s' t'
  | String _ _, EmptyString => false
  end.

(** [s.includes(t)] *)
Fixpoint includes (s t : string) : bool :=
  startsWith s t ||
  match s with
  | EmptyString => false
  | String _ s' => includes s' t
  end.

(** [l.join(sep)] *)
Fixpoint join (sep : string) (l : list string) : string :=
  match l with
  | [] => ""
  | [x] => x
  | x :: rest => x +:+ sep +:+ join sep rest
  end.

(** The template [`${firstName} ${lastName}`]. *)
Definition fullName (u : UserDetails.t) : string :=
  UserDetails.firstName u +:+ " " +:+ UserDetails.lastName u.

(** ** The visibility filter of the snapshot listener *)

Definition visible (order : Order.t) : bool :=
  let od := Order.orderDetails order in
  if String.eqb (OrderDetails.paymentMethod od) "GCash"
  then match OrderDetails.paymentStatus od with
       | Some s => String.eqb s "approved"
       | None => false
       end
  else match OrderDetails.paymentStatus od with
       | Some s => negb (String.eqb s "pending")
       | None => true
       end.

Definition filterVisible (orderList : list Order.t) : list Order.t :=
  List.filter visible orderList.

(** ** Search: the [filteredOrders] of the render *)

Definition matchesSearch (searchTerm : string) (order : Order.t) : bool :=
  includes (toLowerCase (Order.id order)) (toLowerCase searchTerm) ||
  match Order.userDetails order with
  | Some u => includes (toLowerCase (fullName u)) (toLowerCase searchTerm)
  | None => false
  end.

Definition search (orders : list Order.t) (searchTerm : string) : list Order.t :=
  List.filter (matchesSearch searchTerm) orders.

(** ** Stock lookup: the query of [handleStatusUpdate] *)

(** [where("varieties", "array-contains-any", wanted)] *)
Definition arrayContainsAny (field wanted : list string) : bool :=
  existsb (fun v => existsb (String.eqb v) wanted) field.

(** The documents of [stocks] that the query of a line item selects, for a
    query that could be built. *)
Definition stockMatches (item : Item.t) (s : Stock.t) : bool :=
  String.eqb (Stock.sizeName s) (Item.productSize item) &&
  arrayContainsAny (Stock.varieties s) (Item.productVarieties item).

Definition stockQuery (db : Db) (item : Item.t) : list Stock.t :=
  List.filter (stockMatches item) (stocks db).

(** ** Transactions *)

(** The writes a transaction buffers. *)
Inductive Write :=
| UpdateStock (stockId : string) (newQuantity : Z) (lastUpdated : Date)
| SetStockHistory (h : StockHistory.t)
| SetSale (s : Sale.t)
| UpdateOrder (orderId : string) (status : string) (updatedAt : string)
              (completedAt : option string).

(** The update function of a transaction: it may throw, and it appends
    to the buffer of writes. *)
Definition Tx (A : Type) : Type := list Write -> string + (A * list Write).

Definition ret {A} (a : A) : Tx A := fun buf => inr (a, buf).
Definition bind {A B} (m : Tx A) (k : A -> Tx B) : Tx B :=
  fun buf => match m buf with
             | inl e => inl e
             | inr (a, buf') => k a buf'
             end.
Definition throw {A} (msg : string) : Tx A := fun _ => inl msg.
Definition write (w : Write) : Tx unit := fun buf => inr (tt, buf ++ [w]).

#[global] Instance Tx_ret : MRet Tx := @ret.
#[global] Instance Tx_bind : MBind Tx := fun A B k m => bind m k.

(** [for (const x of l) body(x)] *)
Fixpoint forEach {A} (l : list A) (body : A -> Tx unit) : Tx unit :=
  match l with
  | [] => ret tt
  | x :: rest => body x ;; forEach rest body
  end.

Definition setQuantity (q : Z) (d : Date) (s : Stock.t) : Stock.t :=
  Stock.mk (Stock.id s) (Stock.sizeName s) (Stock.varieties s) q d.

(** [update(ref, {quantity, lastUpdated})] on the stock document [sid]. *)
Definition updateStockList (sid : string) (q : Z) (d : Date)
    (l : list Stock.t) : list Stock.t :=
  map (fun s => if String.eqb (Stock.id s) sid then setQuantity q d s else s) l.

Definition setOrderFields (status updatedAt : string)
    (completedAt : option string) (o : OrderDoc.t) : OrderDoc.t :=
  let d := OrderDetails.set_updatedAt updatedAt
             (OrderDetails.set_status status (OrderDoc.orderDetails o)) in
  OrderDoc.mk (OrderDoc.userId o)
    (match completedAt with
     | Some c => OrderDetails.set_completedAt c d
     | None => d
     end)
    (OrderDoc.items o).

Definition applyWrite (db : Db) (w : Write) : Db :=
  match w with
  | UpdateStock sid q d =>
      mkDb (orders db) (updateStockList sid q d (stocks db))
           (stockHistory db) (sales db) (tracking_orders db)
  | SetStockHistory h =>
      mkDb (orders db) (stocks db) (stockHistory db ++ [h]) (sales db)
           (tracking_orders db)
  | SetSale s =>
      mkDb (orders db) (stocks db) (stockHistory db) (sales db ++ [s])
           (tracking_orders db)
  | UpdateOrder oid st u c =>
      mkDb (alter (setOrderFields st u c) oid (orders db)) (stocks db)
           (stockHistory db) (sales db) (tracking_orders db)
  end.

Definition commit (db : Db) (ws : list Write) : Db := fold_left applyWrite ws db.

(** [runTransaction(db, updateFunction)] with nobody else writing. *)
Definition runTransaction (db : Db) (updateFunction : Tx unit) : string + Db :=
  match updateFunction [] with
  | inl e => inl e
  | inr (_, ws) => inr (commit db ws)
  end.

(** ** [handleStatusUpdate] *)

Definition customerNameOf (order : Order.t) : string :=
  match Order.userDetails order with
  | Some u => fullName u
  | None => "Unknown"
  end.

Definition varietiesText (item : Item.t) : string :=
  join ", " (Item.productVarieties item).

Definition noStockMessage (item : Item.t) : string :=
  "No stock found for " +:+ Item.productSize item +:+ " with varieties "
  +:+ varietiesText item.

Definition insufficientMessage (item : Item.t) : string :=
  "Insufficient stock for " +:+ Item.productSize item +:+ " with varieties "
  +:+ varietiesText item.

Definition historyEntry (orderId : string) (now : Date) (item : Item.t)
    (stockDoc : Stock.t) : StockHistory.t :=
  StockHistory.mk (Item.productVarieties item) (Item.productSize item) "out"
    (Item.productQuantity item) (Stock.quantity stockDoc)
    (Stock.quantity stockDoc - Item.productQuantity item) now "System"
    ("Order " +:+ orderId +:+ " ready for pickup") (Stock.id stockDoc) false.

(** The message of the error the SDK throws when [query] is given an
    [array-contains-any] filter with an empty array. *)
Definition invalidQueryMessage : string :=
  "Invalid Query. A non-empty array is required for 'array-contains-any' filters.".

(** The body of the loop over the order's items: [query(...)] throws on an
    empty array of varieties, before [getDocs] is reached. *)
Definition reduceStock (db : Db) (orderId : string) (now : Date)
    (item : Item.t) : Tx unit :=
  match Item.productVarieties item with
  | [] => throw invalidQueryMessage
  | _ :: _ =>
      match stockQuery db item with
      | [] => throw (noStockMessage item)
      | stockDoc :: _ =>
          if Stock.quantity stockDoc <? Item.productQuantity item
          then throw (insufficientMessage item)
          else
            let newQuantity :=
              Stock.quantity stockDoc - Item.productQuantity item in
            write (UpdateStock (Stock.id stockDoc) newQuantity now) ;;
            write (SetStockHistory (historyEntry orderId now item stockDoc))
      end
  end.

Definition saleItem (item : Item.t) : SaleItem.t :=
  SaleItem.mk (Item.productSize item) (Item.productVarieties item)
    (Item.productQuantity item) (Item.productPrice item)
    (Item.productQuantity item * Item.productPrice item).

Definition saleOf (order : Order.t) (orderId : string) (now : Date) : Sale.t :=
  Sale.mk orderId (OrderDetails.totalAmount (Order.orderDetails order)) now
    (map saleItem (Order.items order))
    (OrderDetails.paymentMethod (Order.orderDetails order))
    (customerNameOf order).

(** The function passed to [runTransaction]; [db] is what its reads see. *)
Definition updateFunction (db : Db) (order : Order.t)
    (orderId newStatus : string) (now : Date) : Tx unit :=
  match orders db !! orderId with
  | None => throw "Order not found"
  | Some _ =>
      (if String.eqb newStatus "Ready for Pickup"
       then forEach (Order.items order) (reduceStock db orderId now)
       else ret tt) ;;
      (if String.eqb newStatus "Completed"
       then write (SetSale (saleOf order orderId now))
       else ret tt) ;;
      write (UpdateOrder orderId newStatus (toISOString now)
               (if String.eqb newStatus "Completed"
                then Some (toISOString now) else None))
  end.

(** What the caller of [handleStatusUpdate] sees. *)
Inductive Outcome :=
| Returned                 (* console.error, then return *)
| Alerted (msg : string).  (* alert(msg) *)

Definition successMessage (newStatus : string) : string :=
  "Order " +:+ (if String.eqb newStatus "Completed"
                then "completed and sales updated" else "status updated")
  +:+ " successfully!".

Definition findOrder (orders : list Order.t) (orderId : string) : option Order.t :=
  List.find (fun o => String.eqb (Order.id o) orderId) orders.

Definition handleStatusUpdate (orders : list Order.t) (db : Db)
    (orderId newStatus : string) (now : Date) : Db * Outcome :=
  match findOrder orders orderId with
  | None => (db, Returned)
  | Some order =>
      match Order.ref order with
      | None => (db, Returned)
      | Some _ =>
          match runTransaction db (updateFunction db order orderId newStatus now) with
          | inl e => (db, Alerted e)
          | inr db' => (db', Alerted (successMessage newStatus))
          end
      end
  end.

(** ** The tracking projection: [saveTrackingOrder] *)

Definition orDefault (o : option string) (d : string) : string :=
  match o with
  | Some "" | None => d
  | Some s => s
  end.

Definition trackingOrderOf (order : Order.t) (now : Date) : TrackingOrder.t :=
  let od := Order.orderDetails order in
  TrackingOrder.mk (Order.id order) (Order.userId order) (customerNameOf order)
    (OrderDetails.paymentMethod od)
    (orDefault (OrderDetails.paymentStatus od) "unknown")
    (orDefault (Some (OrderDetails.status od)) "unknown")
    (DateOfString (OrderDetails.createdAt od)) (DateNow now)
    (OrderDetails.pickupTime od) (OrderDetails.pickupDate od)
    (OrderDetails.totalAmount od) (Order.items order).

Definition trackingMatches (orderId : string) (d : TrackingOrder.t) : bool :=
  String.eqb (TrackingOrder.orderId d) orderId.

(** [updateDoc(snapshot.docs[0].ref, data)]: the first document the query
    selects is replaced by [f] of it. *)
Fixpoint updateFirst {A} (p : A -> bool) (f : A -> A) (l : list A) : list A :=
  match l with
  | [] => []
  | x :: rest => if p x then f x :: rest else x :: updateFirst p f rest
  end.

(** [addDoc]: the new document gets a generated id, so its place among the
    documents of the collection is the caller's [pos]. *)
Definition addDoc {A} (pos : nat) (x : A) (l : list A) : list A :=
  take pos l ++ x :: drop pos l.

Definition saveTrackingOrder (db : Db) (order : Order.t) (now : Date)
    (serverNow : Z) (pos : nat) : Db :=
  let trackingOrder := trackingOrderOf order now in
  let trackingSnapshot :=
    List.filter (trackingMatches (Order.id order)) (tracking_orders db) in
  mkDb (orders db) (stocks db) (stockHistory db) (sales db)
    (match trackingSnapshot with
     | [] =>
         addDoc pos
           (TrackingOrder.set_updatedAt (ServerTime serverNow)
              (TrackingOrder.set_createdAt (ServerTime serverNow) trackingOrder))
           (tracking_orders db)
     | _ :: _ =>
         updateFirst (trackingMatches (Order.id order))
           (fun _ => TrackingOrder.set_updatedAt (ServerTime serverNow) trackingOrder)
           (tracking_orders db)
     end).

(** ** Derived views of the transaction, used to state its properties *)

(** [snapshot.docs[0]] of a line item's query, when the snapshot is not
    empty. *)
Definition firstMatch (db : Db) (item : Item.t) : option Stock.t :=
  head (stockQuery db item).

(** The stock document with a given id. *)
Definition stockById (db : Db) (sid : string) : option Stock.t :=
  List.find (fun s => String.eqb (Stock.id s) sid) (stocks db).

(** The error, if any, that the loop body throws on a line item. *)
Definition itemError (db : Db) (item : Item.t) : option string :=
  match Item.productVarieties item with
  | [] => Some invalidQueryMessage
  | _ :: _ =>
      match firstMatch db item with
      | None => Some (noStockMessage item)
      | Some stockDoc =>
          if Stock.quantity stockDoc <? Item.productQuantity item
          then Some (insufficientMessage item) else None
      end
  end.

(** The error of the first line item on which the loop throws. *)
Fixpoint firstError (db : Db) (items : list Item.t) : option string :=
  match items with
  | [] => None
  | item :: rest =>
      match itemError db item with
      | Some e => Some e
      | None => firstError db rest
      end
  end.

(** The writes the loop body buffers for a line item it accepts. *)
Definition itemWrites (db : Db) (orderId : string) (now : Date)
    (item : Item.t) : list Write :=
  match firstMatch db item with
  | None => []
  | Some stockDoc =>
      [UpdateStock (Stock.id stockDoc)
         (Stock.quantity stockDoc - Item.productQuantity item) now;
       SetStockHistory (historyEntry orderId now item stockDoc)]
  end.

(** A stock document matches a line item: same size, and a variety in
    common. *)
Definition matchesItem (item : Item.t) (s : Stock.t) : Prop :=
  Stock.sizeName s = Item.productSize item /\
  exists v, In v (Stock.varieties s) /\ In v (Item.productVarieties item).

(** The id of the stock document a line item draws from. *)
Definition targetId (db : Db) (item : Item.t) : option string :=
  Stock.id <$> firstMatch db item.

(** The history entry the loop body buffers for a line item. *)
Definition itemHistory (db : Db) (orderId : string) (now : Date)
    (item : Item.t) : option StockHistory.t :=
  historyEntry orderId now item <$> firstMatch db item.

(** The effect on [stocks] of the update the loop body buffers. *)
Definition itemStockUpdate (db : Db) (now : Date) (l : list Stock.t)
    (item : Item.t) : list Stock.t :=
  match firstMatch db item with
  | None => l
  | Some s =>
      updateStockList (Stock.id s)
        (Stock.quantity s - Item.productQuantity item) now l
  end.

(** A line item can be served: its first matching stock document holds at
    least the requested quantity. *)
Definition available (db : Db) (item : Item.t) : Prop :=
  exists s, firstMatch db item = Some s /\
            Item.productQuantity item <= Stock.quantity s.

(** The order is in the page's list with a reference, and its document is
    in the store. *)
Definition loaded (orderList : list Order.t) (db : Db) (orderId : string)
    (order : Order.t) (doc : OrderDoc.t) : Prop :=
  findOrder orderList orderId = Some order /\
  is_Some (Order.ref order) /\
  orders db !! orderId = Some doc.

(** The sum of unit price times quantity over the line items. *)
Definition itemsTotal (items : list Item.t) : Z :=
  fold_right (fun item acc => Item.productPrice item * Item.productQuantity item + acc)
    0 items.

(** [s] contains [t] as a substring, compared without case. *)
Definition containsNoCase (s t : string) : Prop :=
  exists pre post, toLowerCase s = pre +:+ toLowerCase t +:+ post.

(** Every character of [s] is an ASCII character. *)
Fixpoint asciiOnly (s : string) : Prop :=
  match s with
  | EmptyString => True
  | String c s' => (nat_of_ascii c < 128)%nat /\ asciiOnly s'
  end.

(** The order's id and the full name of its customer are ASCII text. *)
Definition asciiOrder (order : Order.t) : Prop :=
  asciiOnly (Order.id order) /\
  forall u, Order.userDetails order = Some u -> asciiOnly (fullName u).

(** Two characters are the same letter in either case, or the same
    character: stated on the character codes, 'A'..'Z' being 65..90 and the
    small letter of a capital its code plus 32. *)
Definition sameLetter (a b : ascii) : Prop :=
  a = b \/
  ((65 <= nat_of_ascii a <= 90)%nat /\ nat_of_ascii b = (nat_of_ascii a + 32)%nat) \/
  ((65 <= nat_of_ascii b <= 90)%nat /\ nat_of_ascii a = (nat_of_ascii b + 32)%nat).

(** Two texts are the same up to the case of their letters. *)
Fixpoint sameText (s t : string) : Prop :=
  match s, t with
  | EmptyString, EmptyString => True
  | String a s', String b t' => sameLetter a b /\ sameText s' t'
  | _, _ => False
  end.


(** The projection entries of an order. *)
Definition entriesOf (db : Db) (orderId : string) : list TrackingOrder.t :=
  List.filter (trackingMatches orderId) (tracking_orders db).

(** What [saveTrackingOrder] writes over an existing entry. *)
Definition updatedEntry (order : Order.t) (now : Date) (serverNow : Z) :
    TrackingOrder.t :=
  TrackingOrder.set_updatedAt (ServerTime serverNow) (trackingOrderOf order now).

(** What [saveTrackingOrder] inserts when there is no entry. *)
Definition insertedEntry (order : Order.t) (now : Date) (serverNow : Z) :
    TrackingOrder.t :=
  TrackingOrder.set_updatedAt (ServerTime serverNow)
    (TrackingOrder.set_createdAt (ServerTime serverNow) (trackingOrderOf order now)).

(** ** Transactions of several clients, interleaved

    A client's transaction runs its update function on the store as it is
    then: [transaction.get] records the order document it read, [getDocs]
    is a plain query outside the transaction's reads. The commit, a later
    step, goes through when the documents read with [transaction.get] are
    unchanged, and applies the buffer; otherwise the update function is
    run again. *)

#[global] Instance Item_eq_dec : EqDecision Item.t.
Proof. solve_decision. Defined.
#[global] Instance OrderDetails_eq_dec : EqDecision OrderDetails.t.
Proof. solve_decision. Defined.
#[global] Instance OrderDoc_eq_dec : EqDecision OrderDoc.t.
Proof. solve_decision. Defined.

Record Client := mkClient {
  clientOrders : list Order.t;   (* the page's [orders] state *)
  clientOrderId : string;
  clientNewStatus : string;
  clientNow : Date }.

Inductive Phase :=
| Idle
| Ran (readOrder : option OrderDoc.t) (buffer : list Write)
| Done (outcome : Outcome).

(** One step of a client: run the update function, or commit. *)
Definition stepClient (c : Client) (db : Db) (p : Phase) : Db * Phase :=
  match p with
  | Idle =>
      match findOrder (clientOrders c) (clientOrderId c) with
      | None => (db, Done Returned)
      | Some order =>
          match Order.ref order with
          | None => (db, Done Returned)
          | Some _ =>
              match updateFunction db order (clientOrderId c)
                      (clientNewStatus c) (clientNow c) [] with
              | inl e => (db, Done (Alerted e))
              | inr (_, ws) => (db, Ran (orders db !! clientOrderId c) ws)
              end
          end
      end
  | Ran readOrder ws =>
      if decide (orders db !! clientOrderId c = readOrder)
      then (commit db ws, Done (Alerted (successMessage (clientNewStatus c))))
      else (db, Idle)
  | Done o => (db, Done o)
  end.

(** A schedule names, step by step, the client that moves. *)
Fixpoint exec (clients : list Client) (schedule : list nat)
    (st : Db * list Phase) : Db * list Phase :=
  match schedule with
  | [] => st
  | i :: rest =>
      match clients !! i, snd st !! i with
      | Some c, Some p =>
          let '(db', p') := stepClient c (fst st) p in
          exec clients rest (db', <[i := p']> (snd st))
      | _, _ => exec clients rest st
      end
  end.

(** ** Customer names: [fetchUserDetails] *)

(** A document of the [customers] collection: a full name, or first and
    last name apart. *)
Module Customer.
Record t := mk {
  name : option string;
  firstName : option string;
  lastName : option string }.
End Customer.

(** [s.split(sep)] for a separator of one character. *)
Fixpoint split (sep : ascii) (s : string) : list string :=
  match s with
  | EmptyString => [""]
  | String c s' =>
      if Ascii.eqb c sep then "" :: split sep s'
      else match split sep s' with
           | [] => [String c ""]
           | part :: parts => String c part :: parts
           end
  end.

(** [s || d] on a string. *)
Definition orElse (s d : string) : string :=
  match s with
  | EmptyString => d
  | _ => s
  end.

Definition fetchUserDetails (customers : gmap string Customer.t)
    (userId : string) : option UserDetails.t :=
  match customers !! userId with
  | None => None
  | Some data =>
      match Customer.name data with
      | Some (String c n) =>
          let nameParts := split " " (String c n) in
          let firstName := hd "" nameParts in
          let lastName := orElse (join " " (tl nameParts)) "N/A" in
          Some (UserDetails.mk firstName lastName)
      | _ =>
          Some (UserDetails.mk (orDefault (Customer.firstName data) "N/A")
                               (orDefault (Customer.lastName data) "N/A"))
      end
  end.

(** ** The snapshot listener *)

(** The path of [doc.ref] for a document of [orders]. *)
Definition docRef (id : string) : string := "orders/" +:+ id.

(** [{ id: doc.id, ref: doc.ref, ...data, userDetails }] *)
Definition toOrder (customers : gmap string Customer.t)
    (d : string * OrderDoc.t) : Order.t :=
  Order.mk (fst d) (OrderDoc.userId (snd d))
    (fetchUserDetails customers (OrderDoc.userId (snd d)))
    (OrderDoc.orderDetails (snd d)) (OrderDoc.items (snd d))
    (Some (docRef (fst d))).

(** The saves of the filtered orders, taken in list order; [env k] gives
    the k-th save its client date, its server time and the place of a
    document it adds. *)
Fixpoint saveAll (db : Db) (orderList : list Order.t)
    (env : nat -> Date * Z * nat) (k : nat) : Db :=
  match orderList with
  | [] => db
  | order :: rest =>
      let '(now, serverNow, pos) := env k in
      saveAll (saveTrackingOrder db order now serverNow pos) rest env (S k)
  end.

(** The listener on a snapshot [docs] of [orders]: the new store and the
    new [orders] state of the page. *)
Definition onSnapshot (customers : gmap string Customer.t) (db : Db)
    (docs : list (string * OrderDoc.t)) (env : nat -> Date * Z * nat) :
    Db * list Order.t :=
  let orderList := map (toOrder customers) docs in
  let filteredOrders := filterVisible orderList in
  (saveAll db filteredOrders env 0, filteredOrders).

(** ** What the table shows *)

Definition getStatusColor (status : option string) : string :=
  match status with
  | None | Some EmptyString => "bg-gray-100 text-gray-800"
  | Some s =>
      let l := toLowerCase s in
      if String.eqb l "order placed" then "bg-blue-100 text-blue-800"
      else if String.eqb l "order confirmed" then "bg-purple-100 text-purple-800"
      else if String.eqb l "preparing order" then "bg-yellow-100 text-yellow-800"
      else if String.eqb l "ready for pickup" then "bg-green-100 text-green-800"
      else if String.eqb l "completed" then "bg-green-100 text-green-800"
      else if String.eqb l "cancelled" then "bg-red-100 text-red-800"
      else "bg-gray-100 text-gray-800"
  end.

Definition getPaymentMethodBadge (paymentMethod : string)
    (paymentStatus : option string) : string :=
  if String.eqb paymentMethod "GCash"
  then match paymentStatus with
       | Some "approved" => "bg-green-100 text-green-800"
       | _ => "bg-yellow-100 text-yellow-800"
       end
  else "bg-blue-100 text-blue-800".

(** [s.slice(0, n)] *)
Fixpoint sliceTo (n : nat) (s : string) : string :=
  match n, s with
  | S n', String c s' => String c (sliceTo n' s')
  | _, _ => EmptyString
  end.

(** The id cell shows [order.id.slice(0, 6)] after a '#'. *)
Definition shortId (order : Order.t) : string := sliceTo 6 (Order.id order).

(** The text of the payment cell. *)
Definition paymentLabel (order : Order.t) : string :=
  let od := Order.orderDetails order in
  OrderDetails.paymentMethod od +:+
  (if String.eqb (OrderDetails.paymentMethod od) "GCash"
   then match OrderDetails.paymentStatus od with
        | Some "approved" => " (Approved)"
        | _ => ""
        end
   else "").

(** ** The earlier variant of the page *)

Fixpoint stripPrefix (p s : string) : option string :=
  match p, s with
  | EmptyString, _ => Some s
  | String a p', String b s' => if Ascii.eqb a b then stripPrefix p' s' else None
  | String _ _, EmptyString => None
  end.

Module Legacy.

Inductive Outcome :=
| NoReference              (* console.error, then return *)
| Updated                  (* updateDoc resolved *)
| Failed (msg : string).   (* alert(msg) *)

(** [updateDoc(order.ref, { status, updatedAt })]: refused when the
    reference is to no document of [orders]. *)
Definition handleStatusUpdate (orderList : list Order.t) (db : Db)
    (orderId newStatus : string) (now : Date) : Db * Outcome :=
  match findOrder orderList orderId with
  | None => (db, NoReference)
  | Some order =>
      match Order.ref order with
      | None => (db, NoReference)
      | Some r =>
          match stripPrefix "orders/" r with
          | None => (db, Failed "Failed to update order status.")
          | Some key =>
              match orders db !! key with
              | None => (db, Failed "Failed to update order status.")
              | Some _ =>
                  (mkDb (alter (setOrderFields newStatus (toISOString now) None)
                           key (orders db))
                        (stocks db) (stockHistory db) (sales db)
                        (tracking_orders db),
                   Updated)
              end
          end
      end
  end.

End Legacy.

(** * Properties *)

(** ** Strings *)

Lemma startsWith_spec (s t : string) :
  startsWith s t = true <-> exists post, s = t +:+ post.
Proof.
  revert s; induction t as [|a t IH]; intros s; simpl.
  - split; [intros _; exists s; reflexivity | reflexivity].
  - destruct s as [|b s].
    + split; [discriminate | intros [post H]; discriminate].
    + rewrite andb_true_iff, Ascii.eqb_eq, IH. split.
      * intros [-> [post ->]]. exists post. reflexivity.
      * intros [post H]. injection H as -> ->. eauto.
Qed.

Lemma includes_spec (s t : string) :
  includes s t = true <-> exists pre post, s = pre +:+ t +:+ post.
Proof.
  induction s as [|b s IH].
  - simpl. rewrite orb_false_r, startsWith_spec. split.
    + intros [post H]. exists "", post. exact H.
    + intros [pre [post H]]. destruct pre; [eauto | discriminate].
  - cbn [includes]. rewrite orb_true_iff, IH, startsWith_spec. split.
    + intros [[post H] | [pre [post H]]].
      * exists "", post. exact H.
      * exists (String b pre), post. simpl. rewrite H. reflexivity.
    + intros [pre [post H]]. destruct pre as [|c pre]; simpl in H.
      * left. eauto.
      * right. injection H as _ H. eauto.
Qed.


Lemma string_app_assoc (a b c : string) : (a +:+ b) +:+ c = a +:+ (b +:+ c).
Proof. induction a as [|x a IH]; [reflexivity | exact (f_equal (String x) IH)]. Qed.

Lemma toLowerCase_app (s t : string) :
  toLowerCase (s +:+ t) = toLowerCase s +:+ toLowerCase t.
Proof.
  induction s as [|c s IH]; [reflexivity|].
  exact (f_equal (String (lower_ascii c)) IH).
Qed.

Lemma nat_of_ascii_inj (a b : ascii) : nat_of_ascii a = nat_of_ascii b -> a = b.
Proof.
  intros H. rewrite <- (ascii_nat_embedding a), <- (ascii_nat_embedding b), H.
  reflexivity.
Qed.

Lemma lower_ascii_nat (c : ascii) :
  nat_of_ascii (lower_ascii c) =
  if ((65 <=? nat_of_ascii c)%nat && (nat_of_ascii c <=? 90)%nat)%bool
  then (nat_of_ascii c + 32)%nat else nat_of_ascii c.
Proof.
  unfold lower_ascii. cbv zeta.
  destruct (Nat.leb_spec 65 (nat_of_ascii c));
    destruct (Nat.leb_spec (nat_of_ascii c) 90); simpl; try reflexivity.
  apply nat_ascii_embedding. lia.
Qed.

(** Lower-casing identifies exactly the two cases of a letter. *)
Lemma lower_ascii_sameLetter (a b : ascii) :
  lower_ascii a = lower_ascii b <-> sameLetter a b.
Proof.
  unfold sameLetter. split.
  - intros H. apply (f_equal nat_of_ascii) in H. rewrite !lower_ascii_nat in H.
    destruct (Nat.leb_spec 65 (nat_of_ascii a));
      destruct (Nat.leb_spec (nat_of_ascii a) 90);
      destruct (Nat.leb_spec 65 (nat_of_ascii b));
      destruct (Nat.leb_spec (nat_of_ascii b) 90); simpl in H;
      first [ left; apply nat_of_ascii_inj; lia
            | right; left; lia
            | right; right; lia ].
  - intros [->|[[H1 H2]|[H1 H2]]]; [reflexivity| |];
      apply nat_of_ascii_inj; rewrite !lower_ascii_nat;
      destruct (Nat.leb_spec 65 (nat_of_ascii a));
      destruct (Nat.leb_spec (nat_of_ascii a) 90);
      destruct (Nat.leb_spec 65 (nat_of_ascii b));
      destruct (Nat.leb_spec (nat_of_ascii b) 90); simpl; lia.
Qed.

Lemma toLowerCase_sameText (s t : string) :
  toLowerCase s = toLowerCase t <-> sameText s t.
Proof.
  revert t; induction s as [|a s IH]; intros [|b t]; simpl;
    try (split; [discriminate | tauto]); [tauto|].
  rewrite <- IH, <- lower_ascii_sameLetter. split.
  - intros [= H1 H2]. auto.
  - intros [-> ->]. reflexivity.
Qed.




(** ** The visibility filter *)

(** C5. The visibility filter is a total function of the order: for a GCash
    order it holds exactly when the payment status is 'approved'; for any
    other payment method it holds exactly when the payment status is not
    'pending', so an order without a payment status is visible. *)
Theorem visible_spec (order : Order.t) :
  let od := Order.orderDetails order in
  (OrderDetails.paymentMethod od = "GCash" ->
     (visible order = true <-> OrderDetails.paymentStatus od = Some "approved")) /\
  (OrderDetails.paymentMethod od <> "GCash" ->
     (visible order = true <-> OrderDetails.paymentStatus od <> Some "pending")) /\
  (OrderDetails.paymentMethod od <> "GCash" ->
     OrderDetails.paymentStatus od = None -> visible order = true).
Proof.
  unfold visible. cbv zeta.
  destruct (String.eqb_spec (OrderDetails.paymentMethod (Order.orderDetails order)) "GCash")
    as [Hm|Hm]; (split; [|split]); try congruence; intros _.
  - destruct (OrderDetails.paymentStatus _) as [s|].
    + rewrite String.eqb_eq. split; congruence.
    + split; discriminate.
  - destruct (OrderDetails.paymentStatus _) as [s|].
    + rewrite negb_true_iff, String.eqb_neq. split; congruence.
    + split; [discriminate | reflexivity].
  - intros ->. reflexivity.
Qed.

(** ** Search *)

Lemma matchesSearch_spec (term : string) (o : Order.t) :
  matchesSearch term o = true <->
  containsNoCase (Order.id o) term \/
  exists u, Order.userDetails o = Some u /\ containsNoCase (fullName u) term.
Proof.
  unfold matchesSearch, containsNoCase.
  rewrite orb_true_iff, includes_spec.
  destruct (Order.userDetails o) as [u|].
  - rewrite includes_spec. split.
    + intros [H|H]; [left; exact H | right; exists u; auto].
    + intros [H|[u' [Hu H]]]; [left; exact H | right].
      injection Hu as <-. exact H.
  - split.
    + intros [H|H]; [left; exact H | discriminate].
    + intros [H|[u' [Hu _]]]; [left; exact H | discriminate].
Qed.



(** ** The transaction: running the update function *)

Lemma bind_run {A B} (m : Tx A) (k : A -> Tx B) (buf : list Write) :
  (m ≫= k) buf =
  match m buf with
  | inl e => inl e
  | inr (a, buf') => k a buf'
  end.
Proof. reflexivity. Qed.

Lemma reduceStock_run db orderId now item buf :
  reduceStock db orderId now item buf =
  match itemError db item with
  | Some e => inl e
  | None => inr (tt, buf ++ itemWrites db orderId now item)
  end.
Proof.
  unfold reduceStock, itemError, itemWrites, firstMatch.
  destruct (Item.productVarieties item) as [|v vs]; [reflexivity|].
  destruct (stockQuery db item) as [|s rest]; simpl; [reflexivity|].
  destruct (Stock.quantity s <? Item.productQuantity item); [reflexivity|].
  rewrite bind_run. unfold write. rewrite <- app_assoc. reflexivity.
Qed.

Lemma forEach_reduceStock_error db orderId now items e : forall buf,
  firstError db items = Some e ->
  forEach items (reduceStock db orderId now) buf = inl e.
Proof.
  induction items as [|item rest IH]; intros buf H; simpl in *; [discriminate|].
  rewrite bind_run, reduceStock_run.
  destruct (itemError db item) as [e'|]; [congruence|]. apply IH, H.
Qed.

Lemma forEach_reduceStock_ok db orderId now items : forall buf,
  firstError db items = None ->
  forEach items (reduceStock db orderId now) buf =
  inr (tt, buf ++ concat (map (itemWrites db orderId now) items)).
Proof.
  induction items as [|item rest IH]; intros buf H; simpl in *.
  - rewrite app_nil_r. reflexivity.
  - rewrite bind_run, reduceStock_run.
    destruct (itemError db item) as [e'|]; [discriminate|].
    rewrite IH by exact H. rewrite app_assoc. reflexivity.
Qed.

Lemma arrayContainsAny_nil (field : list string) :
  arrayContainsAny field [] = false.
Proof. unfold arrayContainsAny. induction field; simpl; auto. Qed.

(** A line item without varieties draws from no stock record. *)
Lemma firstMatch_varieties db item s :
  firstMatch db item = Some s -> Item.productVarieties item <> [].
Proof.
  unfold firstMatch, stockQuery. intros H Hnil.
  apply head_Some_elem_of, list_elem_of_In, filter_In in H as [_ Hm].
  unfold stockMatches in Hm. rewrite Hnil, arrayContainsAny_nil in Hm.
  destruct (String.eqb _ _); discriminate.
Qed.

Lemma itemError_available db item :
  itemError db item = None <-> available db item.
Proof.
  unfold itemError, available.
  destruct (Item.productVarieties item) as [|v vs] eqn:Hv.
  { split; [discriminate|]. intros (s & Hs & _).
    destruct (firstMatch_varieties _ _ _ Hs Hv). }
  destruct (firstMatch db item) as [s|].
  - destruct (Z.ltb_spec (Stock.quantity s) (Item.productQuantity item)); split.
    + discriminate.
    + intros [s' [[= <-] Hq]]. lia.
    + intros _. exists s. split; [reflexivity | lia].
    + reflexivity.
  - split; [discriminate | intros [s [[=] _]]].
Qed.

Lemma firstError_None db items :
  firstError db items = None <-> Forall (available db) items.
Proof.
  induction items as [|item rest IH]; simpl.
  - split; [constructor | reflexivity].
  - rewrite Forall_cons_iff, <- IH, <- itemError_available.
    destruct (itemError db item); split; try tauto; discriminate.
Qed.

Lemma firstError_app db pre item post e :
  Forall (available db) pre ->
  itemError db item = Some e ->
  firstError db (pre ++ item :: post) = Some e.
Proof.
  induction 1 as [|i pre Hi _ IH]; intros He; simpl.
  - rewrite He. reflexivity.
  - apply itemError_available in Hi. rewrite Hi. apply IH, He.
Qed.

(** When some line item cannot be served, the loop throws the error of the
    first such item. *)
Lemma firstError_Exists db items item e0 :
  In item items -> itemError db item = Some e0 ->
  exists pre i post e,
    items = pre ++ i :: post /\ Forall (available db) pre /\
    itemError db i = Some e /\ firstError db items = Some e.
Proof.
  induction items as [|x rest IH]; intros Hin He; [destruct Hin|].
  destruct (itemError db x) as [e|] eqn:Hx.
  - exists [], x, rest, e. simpl. rewrite Hx. repeat split; auto.
  - destruct Hin as [->|Hin]; [congruence|].
    destruct (IH Hin He) as (pre & i & post & e & -> & Hpre & Hi & Hf).
    exists (x :: pre), i, post, e. simpl. rewrite Hx.
    repeat split; auto. constructor; [apply itemError_available, Hx | exact Hpre].
Qed.

(** The outcome of [handleStatusUpdate] on a loaded order, by cases of the
    update function. *)
Lemma handleStatusUpdate_loaded orderList db orderId newStatus now order doc :
  loaded orderList db orderId order doc ->
  handleStatusUpdate orderList db orderId newStatus now =
  match updateFunction db order orderId newStatus now [] with
  | inl e => (db, Alerted e)
  | inr (_, ws) => (commit db ws, Alerted (successMessage newStatus))
  end.
Proof.
  intros (Hf & [r Hr] & Hd). unfold handleStatusUpdate, runTransaction.
  rewrite Hf, Hr.
  destruct (updateFunction db order orderId newStatus now []) as [e|[[] ws]];
    reflexivity.
Qed.

Lemma updateFunction_ready db order orderId now doc :
  orders db !! orderId = Some doc ->
  updateFunction db order orderId "Ready for Pickup" now [] =
  match firstError db (Order.items order) with
  | Some e => inl e
  | None =>
      inr (tt, concat (map (itemWrites db orderId now) (Order.items order)) ++
               [UpdateOrder orderId "Ready for Pickup" (toISOString now) None])
  end.
Proof.
  intros Hd. unfold updateFunction. rewrite Hd. simpl.
  rewrite bind_run.
  destruct (firstError db (Order.items order)) as [e|] eqn:Hf.
  - rewrite (forEach_reduceStock_error _ _ _ _ e) by exact Hf. reflexivity.
  - rewrite forEach_reduceStock_ok by exact Hf. reflexivity.
Qed.

Lemma updateFunction_completed db order orderId now doc :
  orders db !! orderId = Some doc ->
  updateFunction db order orderId "Completed" now [] =
  inr (tt, [SetSale (saleOf order orderId now);
            UpdateOrder orderId "Completed" (toISOString now)
              (Some (toISOString now))]).
Proof. intros Hd. unfold updateFunction. rewrite Hd. reflexivity. Qed.

Lemma updateFunction_other db order orderId newStatus now doc :
  orders db !! orderId = Some doc ->
  newStatus <> "Ready for Pickup" -> newStatus <> "Completed" ->
  updateFunction db order orderId newStatus now [] =
  inr (tt, [UpdateOrder orderId newStatus (toISOString now) None]).
Proof.
  intros Hd H1 H2. unfold updateFunction. rewrite Hd.
  apply String.eqb_neq in H1, H2. rewrite H1, H2. reflexivity.
Qed.

Lemma successMessage_other newStatus :
  newStatus <> "Completed" ->
  successMessage newStatus = "Order status updated successfully!".
Proof.
  intros H. unfold successMessage. apply String.eqb_neq in H. rewrite H.
  reflexivity.
Qed.

(** ** Orders that are not in the list *)

Lemma findOrder_absent (orderList : list Order.t) (orderId : string) :
  (forall o, In o orderList -> Order.id o <> orderId) ->
  findOrder orderList orderId = None.
Proof.
  intros H. unfold findOrder.
  destruct (List.find _ orderList) as [o|] eqn:Hf; [|reflexivity].
  apply find_some in Hf as [Hin Heq]. apply String.eqb_eq in Heq.
  destruct (H o Hin Heq).
Qed.

(** C10. When no order of the loaded list has the given id, or the entry
    found for it has no document reference, [handleStatusUpdate] leaves the
    whole store as it is (no transaction is run: no order, stock, history,
    sales or projection document changes) and returns without alerting the
    caller. *)
Theorem handleStatusUpdate_unknown_order
    (orderList : list Order.t) (db : Db) (orderId newStatus : string) (now : Date) :
  (forall o, In o orderList -> Order.id o <> orderId) \/
  (exists o, findOrder orderList orderId = Some o /\ Order.ref o = None) ->
  handleStatusUpdate orderList db orderId newStatus now = (db, Returned).
Proof.
  intros [H|[o [Hf Hr]]]; unfold handleStatusUpdate.
  - rewrite findOrder_absent by exact H. reflexivity.
  - rewrite Hf, Hr. reflexivity.
Qed.

(** ** Status updates without side effects *)

(** Either the update is refused and the store is as before, or the order
    is loaded and its document exists. *)
Lemma handleStatusUpdate_cases orderList db orderId newStatus now :
  (exists out, handleStatusUpdate orderList db orderId newStatus now = (db, out)) \/
  (exists order doc, loaded orderList db orderId order doc).
Proof.
  unfold handleStatusUpdate, loaded.
  destruct (findOrder orderList orderId) as [order|]; [|left; eauto].
  destruct (Order.ref order) as [r|] eqn:Hr; [|left; eauto].
  destruct (orders db !! orderId) as [doc|] eqn:Hd.
  - right. exists order, doc. rewrite Hr. repeat split; eauto.
  - left. unfold runTransaction, updateFunction. rewrite Hd. simpl. eauto.
Qed.

Lemma setOrderFields_frame st u (o : OrderDoc.t) :
  let o' := setOrderFields st u None o in
  let d := OrderDoc.orderDetails o in
  let d' := OrderDoc.orderDetails o' in
  OrderDoc.userId o' = OrderDoc.userId o /\
  OrderDoc.items o' = OrderDoc.items o /\
  OrderDetails.status d' = st /\
  OrderDetails.updatedAt d' = Some u /\
  OrderDetails.completedAt d' = OrderDetails.completedAt d /\
  OrderDetails.pickupTime d' = OrderDetails.pickupTime d /\
  OrderDetails.pickupDate d' = OrderDetails.pickupDate d /\
  OrderDetails.totalAmount d' = OrderDetails.totalAmount d /\
  OrderDetails.paymentMethod d' = OrderDetails.paymentMethod d /\
  OrderDetails.paymentStatus d' = OrderDetails.paymentStatus d /\
  OrderDetails.gcashReference d' = OrderDetails.gcashReference d /\
  OrderDetails.createdAt d' = OrderDetails.createdAt d.
Proof. cbv. repeat split. Qed.

(** C7. For a target status other than "Ready for Pickup" and "Completed",
    [handleStatusUpdate] leaves stock records, stock history, the sales
    ledger and the projection unchanged, and every order document other
    than the one addressed; the addressed document is either unchanged (the
    update was refused) or differs from its old value in exactly its status
    and update timestamp, its completion timestamp staying as it was. On an
    order of the list whose document exists the update goes through. *)
Theorem other_status_updates_only_status
    (orderList : list Order.t) (db : Db) (orderId newStatus : string) (now : Date) :
  newStatus <> "Ready for Pickup" ->
  newStatus <> "Completed" ->
  let db' := fst (handleStatusUpdate orderList db orderId newStatus now) in
  stocks db' = stocks db /\
  stockHistory db' = stockHistory db /\
  sales db' = sales db /\
  tracking_orders db' = tracking_orders db /\
  (forall other, other <> orderId -> orders db' !! other = orders db !! other) /\
  (orders db' !! orderId = orders db !! orderId \/
   exists doc doc',
     orders db !! orderId = Some doc /\ orders db' !! orderId = Some doc' /\
     OrderDoc.userId doc' = OrderDoc.userId doc /\
     OrderDoc.items doc' = OrderDoc.items doc /\
     OrderDetails.status (OrderDoc.orderDetails doc') = newStatus /\
     OrderDetails.updatedAt (OrderDoc.orderDetails doc') = Some (toISOString now) /\
     OrderDetails.completedAt (OrderDoc.orderDetails doc') =
       OrderDetails.completedAt (OrderDoc.orderDetails doc) /\
     OrderDetails.pickupTime (OrderDoc.orderDetails doc') =
       OrderDetails.pickupTime (OrderDoc.orderDetails doc) /\
     OrderDetails.pickupDate (OrderDoc.orderDetails doc') =
       OrderDetails.pickupDate (OrderDoc.orderDetails doc) /\
     OrderDetails.totalAmount (OrderDoc.orderDetails doc') =
       OrderDetails.totalAmount (OrderDoc.orderDetails doc) /\
     OrderDetails.paymentMethod (OrderDoc.orderDetails doc') =
       OrderDetails.paymentMethod (OrderDoc.orderDetails doc) /\
     OrderDetails.paymentStatus (OrderDoc.orderDetails doc') =
       OrderDetails.paymentStatus (OrderDoc.orderDetails doc) /\
     OrderDetails.gcashReference (OrderDoc.orderDetails doc') =
       OrderDetails.gcashReference (OrderDoc.orderDetails doc) /\
     OrderDetails.createdAt (OrderDoc.orderDetails doc') =
       OrderDetails.createdAt (OrderDoc.orderDetails doc)) /\
  (forall order doc, loaded orderList db orderId order doc ->
     handleStatusUpdate orderList db orderId newStatus now =
     (mkDb (alter (setOrderFields newStatus (toISOString now) None) orderId (orders db))
           (stocks db) (stockHistory db) (sales db) (tracking_orders db),
      Alerted "Order status updated successfully!")).
Proof.
  intros H1 H2.
  assert (Hl : forall order doc, loaded orderList db orderId order doc ->
     handleStatusUpdate orderList db orderId newStatus now =
     (mkDb (alter (setOrderFields newStatus (toISOString now) None) orderId (orders db))
           (stocks db) (stockHistory db) (sales db) (tracking_orders db),
      Alerted "Order status updated successfully!")).
  { intros order doc Hl. rewrite (handleStatusUpdate_loaded _ _ _ _ _ order doc Hl).
    destruct Hl as (_ & _ & Hd).
    rewrite (updateFunction_other _ _ _ _ _ doc Hd H1 H2).
    rewrite successMessage_other by exact H2. reflexivity. }
  cbv zeta.
  destruct (handleStatusUpdate_cases orderList db orderId newStatus now)
    as [[out Heq]|(order & doc & Hld)].
  { rewrite Heq in Hl |- *. simpl. repeat split; auto. }
  pose proof Hld as (_ & _ & Hd).
  rewrite (Hl order doc Hld). simpl.
  split; [reflexivity|]. split; [reflexivity|]. split; [reflexivity|].
  split; [reflexivity|]. split; [|split; [|reflexivity]].
  - intros other Hne. apply lookup_alter_ne. congruence.
  - right. exists doc, (setOrderFields newStatus (toISOString now) None doc).
    split; [exact Hd|]. split.
    + rewrite lookup_alter_eq, Hd. reflexivity.
    + apply setOrderFields_frame.
Qed.

Lemma other_status_witness :
  let od := OrderDetails.mk "10:00" "2024-01-02" "Order Confirmed" 30 "Cash"
              None None "2024-01-01" None None in
  let o := Order.mk "o1" "u1" None od [] (Some "orders/o1") in
  let db := mkDb {[ "o1" := OrderDoc.mk "u1" od [] ]}
              [Stock.mk "s1" "Small" ["ube"] 5 (mkDate 1 "T1")] [] [] [] in
  stocks (fst (handleStatusUpdate [o] db "o1" "Cancelled" (mkDate 5 "T5"))) =
  stocks db.
Proof.
  cbv zeta.
  refine (proj1
    (other_status_updates_only_status _ _ "o1" "Cancelled" (mkDate 5 "T5") _ _)).
  - discriminate.
  - discriminate.
Defined.

Lemma handleStatusUpdate_unknown_order_witness :
  let od := OrderDetails.mk "10:00" "2024-01-02" "Order Confirmed" 30 "Cash"
              None None "2024-01-01" None None in
  let o := Order.mk "o1" "u1" None od [] (Some "orders/o1") in
  let db := mkDb {[ "o1" := OrderDoc.mk "u1" od [] ]} [] [] [] [] in
  handleStatusUpdate [o] db "o2" "Completed" (mkDate 5 "T5") = (db, Returned).
Proof.
  cbv zeta. apply handleStatusUpdate_unknown_order.
  left. intros o [<-|[]]. discriminate.
Defined.

(** ** Completing an order *)

Lemma itemsTotal_subtotals (items : list Item.t) :
  itemsTotal items =
  fold_right Z.add 0 (map SaleItem.subtotal (map saleItem items)).
Proof.
  induction items as [|i rest IH]; simpl; [reflexivity|].
  rewrite <- IH. unfold itemsTotal. simpl. lia.
Qed.

(** C4, as the code has it. On an order of the list whose document exists,
    one transition to "Completed" appends exactly one sales record and
    changes no stock record or history entry. The record's total is the
    order's stored total amount (which is the sum of unit price times
    quantity over the line items exactly when the stored total is that
    sum); each of its line items carries subtotal = quantity times unit
    price; and the order document gets status "Completed" together with
    update and completion timestamps, both the time of the call. *)
Theorem completed_appends_one_sale
    (orderList : list Order.t) (db : Db) (orderId : string) (now : Date)
    (order : Order.t) (doc : OrderDoc.t) :
  loaded orderList db orderId order doc ->
  let r := handleStatusUpdate orderList db orderId "Completed" now in
  let sale := saleOf order orderId now in
  snd r = Alerted "Order completed and sales updated successfully!" /\
  sales (fst r) = sales db ++ [sale] /\
  Sale.orderId sale = orderId /\
  Sale.amount sale = OrderDetails.totalAmount (Order.orderDetails order) /\
  (OrderDetails.totalAmount (Order.orderDetails order) = itemsTotal (Order.items order) ->
   Sale.amount sale = itemsTotal (Order.items order)) /\
  Forall2 (fun item si =>
             SaleItem.subtotal si = Item.productPrice item * Item.productQuantity item /\
             SaleItem.quantity si = Item.productQuantity item /\
             SaleItem.price si = Item.productPrice item)
          (Order.items order) (Sale.items sale) /\
  fold_right Z.add 0 (map SaleItem.subtotal (Sale.items sale)) =
    itemsTotal (Order.items order) /\
  orders (fst r) !! orderId =
    Some (setOrderFields "Completed" (toISOString now) (Some (toISOString now)) doc) /\
  OrderDetails.status (OrderDoc.orderDetails
    (setOrderFields "Completed" (toISOString now) (Some (toISOString now)) doc)) = "Completed" /\
  OrderDetails.updatedAt (OrderDoc.orderDetails
    (setOrderFields "Completed" (toISOString now) (Some (toISOString now)) doc)) =
    Some (toISOString now) /\
  OrderDetails.completedAt (OrderDoc.orderDetails
    (setOrderFields "Completed" (toISOString now) (Some (toISOString now)) doc)) =
    Some (toISOString now) /\
  stocks (fst r) = stocks db /\
  stockHistory (fst r) = stockHistory db.
Proof.
  intros Hld. cbv zeta.
  rewrite (handleStatusUpdate_loaded _ _ _ _ _ order doc Hld).
  destruct Hld as (_ & _ & Hd).
  rewrite (updateFunction_completed _ _ _ _ doc Hd). simpl.
  repeat split; try reflexivity.
  - intros H. exact H.
  - induction (Order.items order) as [|i rest IH]; simpl; constructor; auto.
    simpl. repeat split. lia.
  - symmetry. apply itemsTotal_subtotals.
  - rewrite lookup_alter_eq, Hd. reflexivity.
Qed.

Lemma completed_appends_one_sale_witness :
  let od := OrderDetails.mk "10:00" "2024-01-02" "Ready for Pickup" 35 "Cash"
              None None "2024-01-01" None None in
  let items := [Item.mk "c1" "Small" ["ube"] 3 10; Item.mk "c2" "Large" ["cheese"] 1 5] in
  let o := Order.mk "o1" "u1" (Some (UserDetails.mk "Ana" "Cruz")) od items
             (Some "orders/o1") in
  let db := mkDb {[ "o1" := OrderDoc.mk "u1" od items ]} [] [] [] [] in
  sales (fst (handleStatusUpdate [o] db "o1" "Completed" (mkDate 5 "T5"))) =
  [saleOf o "o1" (mkDate 5 "T5")].
Proof.
  cbv zeta.
  refine (proj1 (proj2
    (completed_appends_one_sale _ _ "o1" (mkDate 5 "T5") _
       (OrderDoc.mk "u1" _ _) _))).
  repeat split. exists "orders/o1". reflexivity.
Defined.

(** C4 does not hold as stated: the record's total is copied from the
    order, whatever its line items add up to (here 999 against 30), and an
    order that reaches "Completed" a second time gets a second record. *)
Lemma completed_total_counterexample :
  let od := OrderDetails.mk "10:00" "2024-01-02" "Ready for Pickup" 999 "Cash"
              None None "2024-01-01" None None in
  let items := [Item.mk "c1" "Small" ["ube"] 3 10] in
  let o := Order.mk "o1" "u1" None od items (Some "orders/o1") in
  let db := mkDb {[ "o1" := OrderDoc.mk "u1" od items ]} [] [] [] [] in
  let now := mkDate 5 "T5" in
  let db1 := fst (handleStatusUpdate [o] db "o1" "Completed" now) in
  let db2 := fst (handleStatusUpdate [o] db1 "o1" "Completed" now) in
  (exists sale, sales db1 = [sale] /\ Sale.amount sale = 999 /\
                itemsTotal items = 30 /\ Sale.amount sale <> itemsTotal items) /\
  map Sale.orderId (sales db2) = ["o1"; "o1"].
Proof.
  cbv zeta. split.
  - eexists. split; [vm_compute; reflexivity|]. repeat split. discriminate.
  - vm_compute. reflexivity.
Qed.

(** ** Committing the writes of the stock loop *)

Lemma commit_app db ws1 ws2 :
  commit db (ws1 ++ ws2) = commit (commit db ws1) ws2.
Proof. apply fold_left_app. Qed.

Lemma commit_itemWrites_one db orderId now item db0 :
  let db1 := commit db0 (itemWrites db orderId now item) in
  orders db1 = orders db0 /\
  sales db1 = sales db0 /\
  tracking_orders db1 = tracking_orders db0 /\
  stockHistory db1 =
    stockHistory db0 ++ option_list (itemHistory db orderId now item) /\
  stocks db1 = itemStockUpdate db now (stocks db0) item.
Proof.
  unfold itemWrites, itemHistory, itemStockUpdate.
  destruct (firstMatch db item) as [s|]; simpl; rewrite ?app_nil_r; auto.
Qed.

Lemma commit_itemWrites db orderId now items : forall db0,
  let db1 := commit db0 (concat (map (itemWrites db orderId now) items)) in
  orders db1 = orders db0 /\
  sales db1 = sales db0 /\
  tracking_orders db1 = tracking_orders db0 /\
  stockHistory db1 = stockHistory db0 ++ omap (itemHistory db orderId now) items /\
  stocks db1 = fold_left (itemStockUpdate db now) items (stocks db0).
Proof.
  induction items as [|item rest IH]; intros db0; cbv zeta.
  - simpl. rewrite app_nil_r. auto.
  - cbn [map concat fold_left omap list_omap]. rewrite commit_app.
    destruct (IH (commit db0 (itemWrites db orderId now item)))
      as (Ho & Hs & Ht & Hh & Hk).
    destruct (commit_itemWrites_one db orderId now item db0)
      as (Ho1 & Hs1 & Ht1 & Hh1 & Hk1).
    rewrite Ho, Hs, Ht, Hh, Hk, Ho1, Hs1, Ht1, Hh1, Hk1.
    repeat split. rewrite <- app_assoc. f_equal.
    destruct (itemHistory db orderId now item); reflexivity.
Qed.

Lemma find_updateStockList sid t q d (l : list Stock.t) :
  List.find (fun s => String.eqb (Stock.id s) sid) (updateStockList t q d l) =
  if String.eqb sid t
  then setQuantity q d <$> List.find (fun s => String.eqb (Stock.id s) sid) l
  else List.find (fun s => String.eqb (Stock.id s) sid) l.
Proof.
  induction l as [|x l IH]; simpl.
  - destruct (String.eqb sid t); reflexivity.
  - destruct (String.eqb_spec (Stock.id x) t) as [Hx|Hx]; simpl.
    + destruct (String.eqb_spec (Stock.id x) sid) as [Hs|Hs].
      * subst. rewrite String.eqb_refl. reflexivity.
      * rewrite IH. reflexivity.
    + destruct (String.eqb_spec (Stock.id x) sid) as [Hs|Hs].
      * subst. apply String.eqb_neq in Hx. rewrite Hx. reflexivity.
      * rewrite IH. reflexivity.
Qed.

(** Stock documents that no line item draws from keep their value. *)
Lemma find_fold_frame db now sid items : forall l,
  (forall item, In item items -> targetId db item <> Some sid) ->
  List.find (fun s => String.eqb (Stock.id s) sid)
    (fold_left (itemStockUpdate db now) items l) =
  List.find (fun s => String.eqb (Stock.id s) sid) l.
Proof.
  induction items as [|item rest IH]; intros l H; simpl; [reflexivity|].
  rewrite IH by (intros i Hi; apply H; right; exact Hi).
  unfold itemStockUpdate. pose proof (H item (or_introl eq_refl)) as Hne.
  unfold targetId in Hne. destruct (firstMatch db item) as [s|]; [|reflexivity].
  rewrite find_updateStockList.
  destruct (String.eqb_spec sid (Stock.id s)) as [->|]; [|reflexivity].
  destruct Hne. reflexivity.
Qed.

(** When the line items draw from distinct stock documents, each of these
    ends with its old quantity less the quantity requested. *)
Lemma find_fold_target db now items : forall l item s,
  NoDup (map (targetId db) items) ->
  In item items -> firstMatch db item = Some s ->
  is_Some (List.find (fun x => String.eqb (Stock.id x) (Stock.id s)) l) ->
  exists s',
    List.find (fun x => String.eqb (Stock.id x) (Stock.id s))
      (fold_left (itemStockUpdate db now) items l) = Some s' /\
    Stock.id s' = Stock.id s /\
    Stock.quantity s' = Stock.quantity s - Item.productQuantity item /\
    Stock.lastUpdated s' = now.
Proof.
  induction items as [|x rest IH]; intros l item s Hnd Hin Hfm Hl; [destruct Hin|].
  simpl in Hnd. apply NoDup_cons in Hnd as [Hx Hnd]. simpl.
  destruct Hin as [->|Hin].
  - rewrite find_fold_frame.
    + unfold itemStockUpdate. rewrite Hfm, find_updateStockList, String.eqb_refl.
      destruct Hl as [s0 Hs0]. rewrite Hs0. simpl.
      exists (setQuantity (Stock.quantity s - Item.productQuantity item) now s0).
      repeat split. simpl.
      apply find_some in Hs0 as [_ Hid]. apply String.eqb_eq in Hid. exact Hid.
    + intros i Hi Ht. apply Hx. unfold targetId at 1. rewrite Hfm. simpl.
      rewrite <- Ht. apply list_elem_of_In, in_map, Hi.
  - apply IH; auto.
    unfold itemStockUpdate. destruct (firstMatch db x) as [sx|]; [|exact Hl].
    rewrite find_updateStockList. destruct (String.eqb _ _); [|exact Hl].
    destruct Hl as [s0 ->]. simpl. eauto.
Qed.

Lemma firstMatch_In db item s :
  firstMatch db item = Some s -> In s (stocks db) /\ stockMatches item s = true.
Proof.
  unfold firstMatch, stockQuery. intros H.
  apply (filter_In (stockMatches item)). rewrite <- list_elem_of_In.
  apply head_Some_elem_of. exact H.
Qed.

Lemma firstMatch_stockById db item s :
  firstMatch db item = Some s -> is_Some (stockById db (Stock.id s)).
Proof.
  intros H. apply firstMatch_In in H as [Hin _]. unfold stockById.
  destruct (List.find _ (stocks db)) as [s0|] eqn:Hf; [eauto|].
  pose proof (find_none _ _ Hf s Hin) as Hn. simpl in Hn.
  rewrite String.eqb_refl in Hn. discriminate.
Qed.

Lemma itemHistory_Forall2 db orderId now items :
  Forall (available db) items ->
  Forall2 (fun item h => exists s,
             firstMatch db item = Some s /\ h = historyEntry orderId now item s)
          items (omap (itemHistory db orderId now) items).
Proof.
  induction 1 as [|item rest [s [Hs _]] _ IH]; [constructor|].
  cbn [omap list_omap]. unfold itemHistory at 1. rewrite Hs. simpl.
  constructor; [eauto | exact IH].
Qed.

(** ** What the stock query selects *)

Lemma stockMatches_spec item s :
  stockMatches item s = true <-> matchesItem item s.
Proof.
  unfold stockMatches, matchesItem, arrayContainsAny.
  rewrite andb_true_iff, String.eqb_eq, existsb_exists.
  split; intros [Hs [v [Hv Hw]]]; (split; [exact Hs|]); exists v; (split; [exact Hv|]).
  - apply existsb_exists in Hw as [w [Hw He]]. apply String.eqb_eq in He.
    subst. exact Hw.
  - apply existsb_exists. exists v. split; [exact Hw | apply String.eqb_refl].
Qed.

(** The line item draws from the first document, in query order, that
    matches it. *)
Lemma firstMatch_spec db item s :
  firstMatch db item = Some s <->
  exists before after,
    stocks db = before ++ s :: after /\
    matchesItem item s /\
    Forall (fun x => ~ matchesItem item x) before.
Proof.
  unfold firstMatch, stockQuery.
  induction (stocks db) as [|x l IH]; simpl.
  - split; [discriminate | intros (b & a & H & _)]. destruct b; discriminate.
  - destruct (stockMatches item x) eqn:Hx.
    + simpl. split.
      * intros [= ->]. exists [], l.
        split; [reflexivity|]. split; [apply stockMatches_spec, Hx | constructor].
      * intros (b & a & H & Hm & Hb). destruct b as [|y b].
        -- injection H as -> _. reflexivity.
        -- injection H as <- _. apply Forall_cons_iff in Hb as [Hn _].
           destruct Hn. apply stockMatches_spec, Hx.
    + rewrite IH. split.
      * intros (b & a & -> & Hm & Hb). exists (x :: b), a.
        split; [reflexivity|]. split; [exact Hm|].
        constructor; [|exact Hb]. rewrite <- stockMatches_spec, Hx. discriminate.
      * intros (b & a & H & Hm & Hb). destruct b as [|y b].
        -- injection H as -> _. apply stockMatches_spec in Hm. congruence.
        -- injection H as _ ->. apply Forall_cons_iff in Hb as [_ Hb].
           exists b, a. auto.
Qed.

Lemma firstMatch_None db item :
  firstMatch db item = None <->
  forall s, In s (stocks db) -> ~ matchesItem item s.
Proof.
  unfold firstMatch, stockQuery. rewrite head_None. split.
  - intros H s Hin Hm. apply stockMatches_spec in Hm.
    assert (Hf : In s (List.filter (stockMatches item) (stocks db)))
      by (apply filter_In; auto).
    rewrite H in Hf. destruct Hf.
  - intros H. destruct (List.filter _ _) as [|s l] eqn:Hf; [reflexivity|].
    assert (Hin : In s (List.filter (stockMatches item) (stocks db)))
      by (rewrite Hf; left; reflexivity).
    apply filter_In in Hin as [Hin Hm]. apply stockMatches_spec in Hm.
    destruct (H s Hin Hm).
Qed.

(** ** The transition to "Ready for Pickup" *)

Lemma ready_aborts orderList db orderId now order doc e :
  loaded orderList db orderId order doc ->
  firstError db (Order.items order) = Some e ->
  handleStatusUpdate orderList db orderId "Ready for Pickup" now = (db, Alerted e).
Proof.
  intros Hld He. rewrite (handleStatusUpdate_loaded _ _ _ _ _ order doc Hld).
  destruct Hld as (_ & _ & Hd).
  rewrite (updateFunction_ready _ _ _ _ doc Hd), He. reflexivity.
Qed.

Lemma ready_commits orderList db orderId now order doc :
  loaded orderList db orderId order doc ->
  Forall (available db) (Order.items order) ->
  handleStatusUpdate orderList db orderId "Ready for Pickup" now =
  (commit db (concat (map (itemWrites db orderId now) (Order.items order)) ++
              [UpdateOrder orderId "Ready for Pickup" (toISOString now) None]),
   Alerted "Order status updated successfully!").
Proof.
  intros Hld Hav. rewrite (handleStatusUpdate_loaded _ _ _ _ _ order doc Hld).
  destruct Hld as (_ & _ & Hd). apply firstError_None in Hav.
  rewrite (updateFunction_ready _ _ _ _ doc Hd), Hav. reflexivity.
Qed.

(** C1, as the code has it. Take an order of the list whose document
    exists. If every line item's first matching stock record (same size, a
    variety in common, first in query order) holds at least the quantity
    requested, and no two line items draw from the same record, the
    transition to "Ready for Pickup" succeeds: the record a line item draws
    from ends with quantity Q - q, the other records stay as they were,
    exactly one history entry per line item is appended, in order, with
    previousStock = Q, currentStock = Q - q, type 'out' and a remark naming
    the order id, and the order's status becomes "Ready for Pickup". *)
Theorem ready_for_pickup_decrements
    (orderList : list Order.t) (db : Db) (orderId : string) (now : Date)
    (order : Order.t) (doc : OrderDoc.t) :
  loaded orderList db orderId order doc ->
  Forall (available db) (Order.items order) ->
  NoDup (map (targetId db) (Order.items order)) ->
  let r := handleStatusUpdate orderList db orderId "Ready for Pickup" now in
  snd r = Alerted "Order status updated successfully!" /\
  (forall item s,
     In item (Order.items order) -> firstMatch db item = Some s ->
     exists s', stockById (fst r) (Stock.id s) = Some s' /\
                Stock.quantity s' = Stock.quantity s - Item.productQuantity item) /\
  (forall sid,
     (forall item, In item (Order.items order) -> targetId db item <> Some sid) ->
     stockById (fst r) sid = stockById db sid) /\
  (exists entries,
     stockHistory (fst r) = stockHistory db ++ entries /\
     Forall2 (fun item h => exists s,
                firstMatch db item = Some s /\
                StockHistory.previousStock h = Stock.quantity s /\
                StockHistory.currentStock h =
                  Stock.quantity s - Item.productQuantity item /\
                StockHistory.quantity h = Item.productQuantity item /\
                StockHistory.type h = "out" /\
                StockHistory.remarks h = "Order " +:+ orderId +:+ " ready for pickup" /\
                StockHistory.stockId h = Stock.id s)
             (Order.items order) entries) /\
  (exists doc', orders (fst r) !! orderId = Some doc' /\
     OrderDetails.status (OrderDoc.orderDetails doc') = "Ready for Pickup" /\
     OrderDetails.updatedAt (OrderDoc.orderDetails doc') = Some (toISOString now) /\
     OrderDetails.completedAt (OrderDoc.orderDetails doc') =
       OrderDetails.completedAt (OrderDoc.orderDetails doc)) /\
  sales (fst r) = sales db.
Proof.
  intros Hld Hav Hnd. cbv zeta.
  rewrite (ready_commits _ _ _ _ order doc Hld Hav). cbn [fst snd].
  rewrite commit_app.
  destruct (commit_itemWrites db orderId now (Order.items order) db)
    as (Ho & Hs & Ht & Hh & Hk).
  set (db1 := commit db _) in *. unfold stockById. cbn -[db1].
  rewrite Ho, Hs, Hh, Hk. destruct Hld as (_ & _ & Hd).
  split; [reflexivity|]. split; [|split; [|split; [|split]]].
  - intros item s Hin Hfm.
    destruct (find_fold_target db now (Order.items order) (stocks db) item s
                Hnd Hin Hfm (firstMatch_stockById _ _ _ Hfm))
      as (s' & Hf & _ & Hq & _).
    exists s'. auto.
  - intros sid Hfr. apply find_fold_frame, Hfr.
  - eexists. split; [reflexivity|].
    eapply Forall2_impl; [apply itemHistory_Forall2, Hav|].
    intros item h (s & Hs' & ->). exists s. repeat split. exact Hs'.
  - exists (setOrderFields "Ready for Pickup" (toISOString now) None doc).
    rewrite lookup_alter_eq, Hd. repeat split.
  - reflexivity.
Qed.

Lemma ready_for_pickup_decrements_witness :
  let now := mkDate 5 "T5" in
  let od := OrderDetails.mk "10:00" "2024-01-02" "Preparing Order" 35 "Cash"
              None None "2024-01-01" None None in
  let items := [Item.mk "c1" "Small" ["ube"] 3 10;
                Item.mk "c2" "Large" ["cheese"; "ube"] 1 5] in
  let o := Order.mk "o1" "u1" None od items (Some "orders/o1") in
  let db := mkDb {[ "o1" := OrderDoc.mk "u1" od items ]}
              [Stock.mk "s1" "Small" ["ube"] 5 (mkDate 1 "T1");
               Stock.mk "s2" "Large" ["cheese"] 1 (mkDate 1 "T1")] [] [] [] in
  snd (handleStatusUpdate [o] db "o1" "Ready for Pickup" now) =
  Alerted "Order status updated successfully!".
Proof.
  cbv zeta.
  refine (proj1 (ready_for_pickup_decrements _ _ "o1" (mkDate 5 "T5") _
                   (OrderDoc.mk "u1" _ _) _ _ _)).
  - repeat split. exists "orders/o1". reflexivity.
  - repeat constructor; eexists; (split; [reflexivity | simpl; lia]).
  - vm_compute. repeat constructor; rewrite ?list_elem_of_In; simpl; intuition discriminate.
Defined.

(** C1 does not hold as stated. First input: the line item matches the
    record s2, which holds 10 >= 3, but the item draws from s1, the first
    match, and the transition is refused. Second input: the first line item
    has enough stock, the second has no stock record, and the transition is
    refused as a whole. *)
Lemma ready_for_pickup_counterexample :
  let now := mkDate 5 "T5" in
  let od := OrderDetails.mk "10:00" "2024-01-02" "Preparing Order" 30 "Cash"
              None None "2024-01-01" None None in
  let it := Item.mk "c1" "Small" ["ube"; "cheese"] 3 10 in
  let s1 := Stock.mk "s1" "Small" ["ube"] 1 (mkDate 1 "T1") in
  let s2 := Stock.mk "s2" "Small" ["cheese"] 10 (mkDate 1 "T1") in
  let o := Order.mk "o1" "u1" None od [it] (Some "orders/o1") in
  let db := mkDb {[ "o1" := OrderDoc.mk "u1" od [it] ]} [s1; s2] [] [] [] in
  let it' := Item.mk "c2" "Large" ["mango"] 1 5 in
  let o' := Order.mk "o1" "u1" None od [it; it'] (Some "orders/o1") in
  let db' := mkDb {[ "o1" := OrderDoc.mk "u1" od [it; it'] ]} [s2] [] [] [] in
  (In s2 (stocks db) /\ matchesItem it s2 /\
   Item.productQuantity it <= Stock.quantity s2 /\
   handleStatusUpdate [o] db "o1" "Ready for Pickup" now =
     (db, Alerted "Insufficient stock for Small with varieties ube, cheese")) /\
  (In s2 (stocks db') /\ matchesItem it s2 /\
   Item.productQuantity it <= Stock.quantity s2 /\
   handleStatusUpdate [o'] db' "o1" "Ready for Pickup" now =
     (db', Alerted "No stock found for Large with varieties mango")).
Proof.
  cbv zeta. split; (split; [simpl; auto|]);
    (split; [apply stockMatches_spec; reflexivity|]);
    (split; [simpl; lia | vm_compute; reflexivity]).
Qed.

(** Two line items that draw from the same record both read its quantity
    before either write is applied: the last write stands. *)
Lemma same_record_twice_last_write_stands :
  let now := mkDate 5 "T5" in
  let od := OrderDetails.mk "10:00" "2024-01-02" "Preparing Order" 40 "Cash"
              None None "2024-01-01" None None in
  let items := [Item.mk "c1" "Small" ["ube"] 3 10; Item.mk "c2" "Small" ["ube"] 1 10] in
  let o := Order.mk "o1" "u1" None od items (Some "orders/o1") in
  let db := mkDb {[ "o1" := OrderDoc.mk "u1" od items ]}
              [Stock.mk "s1" "Small" ["ube"] 5 (mkDate 1 "T1")] [] [] [] in
  let r := handleStatusUpdate [o] db "o1" "Ready for Pickup" now in
  snd r = Alerted "Order status updated successfully!" /\
  map Stock.quantity (stocks (fst r)) = [4] /\
  map StockHistory.previousStock (stockHistory (fst r)) = [5; 5] /\
  map StockHistory.currentStock (stockHistory (fst r)) = [2; 4].
Proof. cbv zeta. repeat split; vm_compute; reflexivity. Qed.

(** The three ways the loop body throws on a line item. *)
Lemma itemError_cases db item e :
  itemError db item = Some e ->
  (Item.productVarieties item = [] /\ e = invalidQueryMessage) \/
  (Item.productVarieties item <> [] /\
   (forall s, In s (stocks db) -> ~ matchesItem item s) /\
   e = noStockMessage item) \/
  (exists s, firstMatch db item = Some s /\
             Stock.quantity s < Item.productQuantity item /\
             e = insufficientMessage item).
Proof.
  unfold itemError. destruct (Item.productVarieties item) as [|v vs] eqn:Hv.
  - intros [= <-]. left. auto.
  - destruct (firstMatch db item) as [s|] eqn:Hs.
    + destruct (Z.ltb_spec (Stock.quantity s) (Item.productQuantity item));
        [|discriminate].
      intros [= <-]. right. right. exists s. auto.
    + intros [= <-]. right. left. split; [discriminate|].
      split; [apply firstMatch_None, Hs | reflexivity].
Qed.

(** A transition with a line item that cannot be served is refused with
    the error of the first such item. *)
Lemma ready_aborts_first orderList db orderId now order doc item e0 :
  loaded orderList db orderId order doc ->
  In item (Order.items order) ->
  itemError db item = Some e0 ->
  exists pre i post e,
    Order.items order = pre ++ i :: post /\ Forall (available db) pre /\
    itemError db i = Some e /\ firstError db (Order.items order) = Some e /\
    handleStatusUpdate orderList db orderId "Ready for Pickup" now =
      (db, Alerted e).
Proof.
  intros Hld Hin He.
  destruct (firstError_Exists db _ item _ Hin He)
    as (pre & i & post & e & Hitems & Hpre & Hi & Hf).
  exists pre, i, post, e. repeat split; auto.
  apply (ready_aborts _ _ _ _ order doc e Hld Hf).
Qed.

(** C2, as the code has it. Take an order of the list whose document
    exists, and a line item whose first matching stock record holds less
    than the quantity requested. The transition to "Ready for Pickup" is
    refused and the store is left exactly as it was (stock quantities,
    history, sales and the order's status included). The error shown is that
    of the first line item that cannot be served: the SDK's "Invalid Query"
    error when that item names no variety, "No stock found ..." naming it
    when no stock record matches it, "Insufficient stock ..." naming it when
    its first match holds too little. So it is "Insufficient stock for
    <size> with varieties <list>" naming this item when every line item
    before it can be served. *)
Theorem insufficient_stock_aborts
    (orderList : list Order.t) (db : Db) (orderId : string) (now : Date)
    (order : Order.t) (doc : OrderDoc.t) (item : Item.t) (s : Stock.t) :
  loaded orderList db orderId order doc ->
  In item (Order.items order) ->
  firstMatch db item = Some s ->
  Stock.quantity s < Item.productQuantity item ->
  let r := handleStatusUpdate orderList db orderId "Ready for Pickup" now in
  fst r = db /\
  (exists pre i post,
     Order.items order = pre ++ i :: post /\ Forall (available db) pre /\
     ((Item.productVarieties i = [] /\ snd r = Alerted invalidQueryMessage) \/
      (Item.productVarieties i <> [] /\
       (forall s', In s' (stocks db) -> ~ matchesItem i s') /\
       snd r = Alerted ("No stock found for " +:+ Item.productSize i +:+
                        " with varieties " +:+ join ", " (Item.productVarieties i))) \/
      (exists s', firstMatch db i = Some s' /\
         Stock.quantity s' < Item.productQuantity i /\
         snd r = Alerted ("Insufficient stock for " +:+ Item.productSize i +:+
                          " with varieties " +:+ join ", " (Item.productVarieties i))))) /\
  (forall pre post,
     Order.items order = pre ++ item :: post -> Forall (available db) pre ->
     snd r = Alerted ("Insufficient stock for " +:+ Item.productSize item +:+
                      " with varieties " +:+ join ", " (Item.productVarieties item))).
Proof.
  intros Hld Hin Hfm Hq. cbv zeta.
  assert (He : itemError db item = Some (insufficientMessage item)).
  { unfold itemError. pose proof (firstMatch_varieties _ _ _ Hfm) as Hv.
    destruct (Item.productVarieties item); [congruence|]. rewrite Hfm.
    destruct (Z.ltb_spec (Stock.quantity s) (Item.productQuantity item));
      [reflexivity | lia]. }
  destruct (ready_aborts_first _ _ orderId now _ _ _ _ Hld Hin He)
    as (pre & i & post & e & Hitems & Hpre & Hi & Hf & ->). cbn [fst snd].
  split; [reflexivity|]. split.
  - exists pre, i, post. split; [exact Hitems|]. split; [exact Hpre|].
    destruct (itemError_cases _ _ _ Hi)
      as [(Hv & ->)|[(Hv & Hno & ->)|(s' & Hs' & Hq' & ->)]].
    + left. auto.
    + right. left. auto.
    + right. right. exists s'. auto.
  - intros pre' post' Hitems' Hpre'.
    rewrite Hitems', (firstError_app _ _ _ _ _ Hpre' He) in Hf.
    injection Hf as <-. reflexivity.
Qed.

Lemma insufficient_stock_aborts_witness :
  let now := mkDate 5 "T5" in
  let od := OrderDetails.mk "10:00" "2024-01-02" "Preparing Order" 30 "Cash"
              None None "2024-01-01" None None in
  let it := Item.mk "c1" "Small" ["ube"; "cheese"] 3 10 in
  let s1 := Stock.mk "s1" "Small" ["ube"] 1 (mkDate 1 "T1") in
  let o := Order.mk "o1" "u1" None od [it] (Some "orders/o1") in
  let db := mkDb {[ "o1" := OrderDoc.mk "u1" od [it] ]} [s1] [] [] [] in
  fst (handleStatusUpdate [o] db "o1" "Ready for Pickup" now) = db.
Proof.
  cbv zeta.
  refine (proj1 (insufficient_stock_aborts _ _ "o1" (mkDate 5 "T5") _
                   (OrderDoc.mk "u1" _ _)
                   (Item.mk "c1" "Small" ["ube"; "cheese"] 3 10)
                   (Stock.mk "s1" "Small" ["ube"] 1 (mkDate 1 "T1")) _ _ _ _)).
  - repeat split. exists "orders/o1". reflexivity.
  - left. reflexivity.
  - reflexivity.
  - simpl. lia.
Defined.

(** C2 does not hold as stated. First input: the record s2 matches the line
    item and holds 1 < 3, yet the item draws from s1, the first match,
    which holds enough, and the transition goes through. Second input: the
    second line item asks for more than its only matching record holds, but
    the error shown is the "No stock found" of the first line item. Third
    input: the same with a first line item that names no variety; the error
    shown is the SDK's. *)
Lemma insufficient_stock_counterexample :
  let now := mkDate 5 "T5" in
  let od := OrderDetails.mk "10:00" "2024-01-02" "Preparing Order" 30 "Cash"
              None None "2024-01-01" None None in
  let it := Item.mk "c1" "Small" ["ube"; "cheese"] 3 10 in
  let s1 := Stock.mk "s1" "Small" ["ube"] 10 (mkDate 1 "T1") in
  let s2 := Stock.mk "s2" "Small" ["cheese"] 1 (mkDate 1 "T1") in
  let o := Order.mk "o1" "u1" None od [it] (Some "orders/o1") in
  let db := mkDb {[ "o1" := OrderDoc.mk "u1" od [it] ]} [s1; s2] [] [] [] in
  let it' := Item.mk "c2" "Large" ["mango"] 1 5 in
  let o' := Order.mk "o1" "u1" None od [it'; it] (Some "orders/o1") in
  let db' := mkDb {[ "o1" := OrderDoc.mk "u1" od [it'; it] ]} [s2] [] [] [] in
  let it'' := Item.mk "c3" "Large" [] 1 5 in
  let o'' := Order.mk "o1" "u1" None od [it''; it] (Some "orders/o1") in
  let db'' := mkDb {[ "o1" := OrderDoc.mk "u1" od [it''; it] ]} [s2] [] [] [] in
  (In s2 (stocks db) /\ matchesItem it s2 /\
   Stock.quantity s2 < Item.productQuantity it /\
   snd (handleStatusUpdate [o] db "o1" "Ready for Pickup" now) =
     Alerted "Order status updated successfully!" /\
   map Stock.quantity (stocks (fst (handleStatusUpdate [o] db "o1" "Ready for Pickup" now)))
     = [7; 1]) /\
  (firstMatch db' it = Some s2 /\
   Stock.quantity s2 < Item.productQuantity it /\
   handleStatusUpdate [o'] db' "o1" "Ready for Pickup" now =
     (db', Alerted "No stock found for Large with varieties mango")) /\
  (firstMatch db'' it = Some s2 /\
   Stock.quantity s2 < Item.productQuantity it /\
   handleStatusUpdate [o''] db'' "o1" "Ready for Pickup" now =
     (db'', Alerted invalidQueryMessage)).
Proof.
  cbv zeta. split; [|split].
  - split; [simpl; auto|]. split; [apply stockMatches_spec; reflexivity|].
    split; [simpl; lia|]. split; vm_compute; reflexivity.
  - split; [reflexivity|]. split; [simpl; lia | vm_compute; reflexivity].
  - split; [reflexivity|]. split; [simpl; lia | vm_compute; reflexivity].
Qed.

(** C3, as the code has it. Take an order of the list whose document
    exists, and a line item that no stock record matches (none has its size
    together with one of its varieties). The transition to "Ready for
    Pickup" is refused and the store is left exactly as it was: no stock
    decrement, history entry or status change, also none for the line items
    before it that could have been served. The error shown is that of the
    first line item that cannot be served (the SDK's "Invalid Query" error,
    "No stock found ..." or "Insufficient stock ..." naming it). When every
    line item before this one can be served, it is "No stock found for
    <size> with varieties <list>" naming this item if the item names at
    least one variety, and the SDK's "Invalid Query" error if it names
    none. *)
Theorem no_stock_aborts
    (orderList : list Order.t) (db : Db) (orderId : string) (now : Date)
    (order : Order.t) (doc : OrderDoc.t) (item : Item.t) :
  loaded orderList db orderId order doc ->
  In item (Order.items order) ->
  (forall s, In s (stocks db) -> ~ matchesItem item s) ->
  let r := handleStatusUpdate orderList db orderId "Ready for Pickup" now in
  fst r = db /\
  (exists pre i post,
     Order.items order = pre ++ i :: post /\ Forall (available db) pre /\
     ((Item.productVarieties i = [] /\ snd r = Alerted invalidQueryMessage) \/
      (Item.productVarieties i <> [] /\
       (forall s', In s' (stocks db) -> ~ matchesItem i s') /\
       snd r = Alerted ("No stock found for " +:+ Item.productSize i +:+
                        " with varieties " +:+ join ", " (Item.productVarieties i))) \/
      (exists s', firstMatch db i = Some s' /\
         Stock.quantity s' < Item.productQuantity i /\
         snd r = Alerted ("Insufficient stock for " +:+ Item.productSize i +:+
                          " with varieties " +:+ join ", " (Item.productVarieties i))))) /\
  (forall pre post,
     Order.items order = pre ++ item :: post -> Forall (available db) pre ->
     (Item.productVarieties item <> [] ->
      snd r = Alerted ("No stock found for " +:+ Item.productSize item +:+
                       " with varieties " +:+ join ", " (Item.productVarieties item))) /\
     (Item.productVarieties item = [] -> snd r = Alerted invalidQueryMessage)).
Proof.
  intros Hld Hin Hno. cbv zeta.
  assert (He : itemError db item =
               Some (match Item.productVarieties item with
                     | [] => invalidQueryMessage
                     | _ :: _ => noStockMessage item
                     end)).
  { unfold itemError. apply firstMatch_None in Hno. rewrite Hno.
    destruct (Item.productVarieties item); reflexivity. }
  destruct (ready_aborts_first _ _ orderId now _ _ _ _ Hld Hin He)
    as (pre & i & post & e & Hitems & Hpre & Hi & Hf & ->). cbn [fst snd].
  split; [reflexivity|]. split.
  - exists pre, i, post. split; [exact Hitems|]. split; [exact Hpre|].
    destruct (itemError_cases _ _ _ Hi)
      as [(Hv & ->)|[(Hv & Hno' & ->)|(s' & Hs' & Hq' & ->)]].
    + left. auto.
    + right. left. auto.
    + right. right. exists s'. auto.
  - intros pre' post' Hitems' Hpre'.
    rewrite Hitems', (firstError_app _ _ _ _ _ Hpre' He) in Hf.
    injection Hf as <-. unfold noStockMessage, varietiesText.
    destruct (Item.productVarieties item); split; intros H;
      first [reflexivity | congruence].
Qed.

Lemma no_stock_aborts_witness :
  let now := mkDate 5 "T5" in
  let od := OrderDetails.mk "10:00" "2024-01-02" "Preparing Order" 35 "Cash"
              None None "2024-01-01" None None in
  let it := Item.mk "c1" "Small" ["ube"] 3 10 in
  let it' := Item.mk "c2" "Large" ["mango"] 1 5 in
  let s1 := Stock.mk "s1" "Small" ["ube"] 10 (mkDate 1 "T1") in
  let s2 := Stock.mk "s2" "Large" ["cheese"] 4 (mkDate 1 "T1") in
  let o := Order.mk "o1" "u1" None od [it; it'] (Some "orders/o1") in
  let db := mkDb {[ "o1" := OrderDoc.mk "u1" od [it; it'] ]} [s1; s2] [] [] [] in
  fst (handleStatusUpdate [o] db "o1" "Ready for Pickup" now) = db.
Proof.
  cbv zeta.
  refine (proj1 (no_stock_aborts _ _ "o1" (mkDate 5 "T5") _
                   (OrderDoc.mk "u1" _ _)
                   (Item.mk "c2" "Large" ["mango"] 1 5) _ _ _)).
  - repeat split. exists "orders/o1". reflexivity.
  - right. left. reflexivity.
  - intros s [<-|[<-|[]]] [Hs [v [Hv Hw]]]; simpl in *; try discriminate.
    destruct Hv as [<-|[]]. destruct Hw as [Hw|[]]. discriminate.
Defined.

(** C3 does not hold as stated. First input: the second line item has no
    matching stock record, but the first asks for more than its record
    holds, and the error shown is the first item's "Insufficient stock", not
    "No stock found". Second input: the only line item names no variety, so
    no stock record matches it; the query is refused by the SDK and the
    error shown is its "Invalid Query" message. *)
Lemma no_stock_counterexample :
  let now := mkDate 5 "T5" in
  let od := OrderDetails.mk "10:00" "2024-01-02" "Preparing Order" 35 "Cash"
              None None "2024-01-01" None None in
  let it := Item.mk "c1" "Small" ["ube"] 3 10 in
  let it' := Item.mk "c2" "Large" ["mango"] 1 5 in
  let s1 := Stock.mk "s1" "Small" ["ube"] 1 (mkDate 1 "T1") in
  let o := Order.mk "o1" "u1" None od [it; it'] (Some "orders/o1") in
  let db := mkDb {[ "o1" := OrderDoc.mk "u1" od [it; it'] ]} [s1] [] [] [] in
  let it'' := Item.mk "c3" "Small" [] 1 10 in
  let o'' := Order.mk "o1" "u1" None od [it''] (Some "orders/o1") in
  let db'' := mkDb {[ "o1" := OrderDoc.mk "u1" od [it''] ]} [s1] [] [] [] in
  (In it' (Order.items o) /\
   (forall s, In s (stocks db) -> ~ matchesItem it' s) /\
   handleStatusUpdate [o] db "o1" "Ready for Pickup" now =
     (db, Alerted "Insufficient stock for Small with varieties ube") /\
   Alerted "Insufficient stock for Small with varieties ube" <>
     Alerted (noStockMessage it')) /\
  (In it'' (Order.items o'') /\
   (forall s, In s (stocks db'') -> ~ matchesItem it'' s) /\
   handleStatusUpdate [o''] db'' "o1" "Ready for Pickup" now =
     (db'', Alerted invalidQueryMessage) /\
   Alerted invalidQueryMessage <> Alerted (noStockMessage it'')).
Proof.
  cbv zeta. split.
  - split; [simpl; auto|]. split.
    + intros s [<-|[]] [Hs _]. discriminate.
    + split; [vm_compute; reflexivity | discriminate].
  - split; [simpl; auto|]. split.
    + intros s [<-|[]] [_ [v [_ []]]].
    + split; [vm_compute; reflexivity | discriminate].
Qed.

(** ** The tracking projection *)

Lemma filter_addDoc {A} (p : A -> bool) pos x (l : list A) :
  List.filter p (addDoc pos x l) =
  List.filter p (take pos l) ++ (if p x then [x] else []) ++
  List.filter p (drop pos l).
Proof.
  unfold addDoc. rewrite List.filter_app. simpl. destruct (p x); reflexivity.
Qed.

Lemma filter_take_drop {A} (p : A -> bool) pos (l : list A) :
  List.filter p l = List.filter p (take pos l) ++ List.filter p (drop pos l).
Proof. rewrite <- List.filter_app, take_drop. reflexivity. Qed.

Lemma filter_updateFirst_same {A} (p : A -> bool) f (l : list A) :
  (forall x, p x = true -> p (f x) = true) ->
  List.filter p (updateFirst p f l) =
  match List.filter p l with
  | [] => []
  | e :: rest => f e :: rest
  end.
Proof.
  intros Hf. induction l as [|x l IH]; simpl; [reflexivity|].
  destruct (p x) eqn:Hx; simpl.
  - rewrite (Hf x Hx). reflexivity.
  - rewrite Hx. exact IH.
Qed.

Lemma filter_updateFirst_other {A} (p q : A -> bool) f (l : list A) :
  (forall x, p x = true -> q x = false /\ q (f x) = false) ->
  List.filter q (updateFirst p f l) = List.filter q l.
Proof.
  intros Hf. induction l as [|x l IH]; simpl; [reflexivity|].
  destruct (p x) eqn:Hx; simpl.
  - destruct (Hf x Hx) as [-> ->]. reflexivity.
  - rewrite IH. reflexivity.
Qed.

Lemma entriesOf_save db order now t pos :
  entriesOf (saveTrackingOrder db order now t pos) (Order.id order) =
  match entriesOf db (Order.id order) with
  | [] => [insertedEntry order now t]
  | _ :: rest => updatedEntry order now t :: rest
  end.
Proof.
  unfold entriesOf, saveTrackingOrder. cbn [tracking_orders].
  destruct (List.filter _ (tracking_orders db)) as [|e rest] eqn:Hf.
  - rewrite filter_addDoc.
    rewrite (filter_take_drop _ pos) in Hf. apply app_eq_nil in Hf as [-> ->].
    unfold trackingMatches at 1. simpl. rewrite String.eqb_refl. reflexivity.
  - rewrite filter_updateFirst_same, Hf; [reflexivity|].
    intros x _. unfold trackingMatches. simpl. apply String.eqb_refl.
Qed.

Lemma entriesOf_save_other db order now t pos other :
  other <> Order.id order ->
  entriesOf (saveTrackingOrder db order now t pos) other = entriesOf db other.
Proof.
  intros Hne. unfold entriesOf, saveTrackingOrder. cbn [tracking_orders].
  destruct (List.filter _ (tracking_orders db)) as [|e rest] eqn:Hf.
  - rewrite filter_addDoc, (filter_take_drop (trackingMatches other) pos (tracking_orders db)).
    unfold trackingMatches at 2. simpl.
    apply not_eq_sym, String.eqb_neq in Hne. rewrite Hne. reflexivity.
  - apply filter_updateFirst_other. intros x Hx. unfold trackingMatches in *.
    simpl. apply String.eqb_eq in Hx. rewrite Hx. apply not_eq_sym in Hne.
    apply String.eqb_neq in Hne. auto.
Qed.

(** C6, as the code has it. The upsert is keyed by order id and never adds
    a second entry: an order without an entry gets exactly one, an order
    with entries keeps their number, and applying the same order state
    again leaves that number unchanged. The first application on an absent
    order inserts an entry whose creation and update timestamps are the
    server time. An application on an existing entry overwrites every
    field from the order, the creation timestamp included, which becomes
    the order's own creation date, and sets the update timestamp to the
    server time; from then on a further application of the same order state
    changes the update timestamp only. Entries of other orders and the
    other collections are untouched. *)
Theorem saveTrackingOrder_upsert
    (db : Db) (order : Order.t) (now1 now2 now3 : Date) (t1 t2 t3 : Z)
    (pos1 pos2 pos3 : nat) :
  let oid := Order.id order in
  let db1 := saveTrackingOrder db order now1 t1 pos1 in
  let db2 := saveTrackingOrder db1 order now2 t2 pos2 in
  let db3 := saveTrackingOrder db2 order now3 t3 pos3 in
  length (entriesOf db1 oid) = Nat.max 1 (length (entriesOf db oid)) /\
  length (entriesOf db2 oid) = length (entriesOf db1 oid) /\
  (entriesOf db oid = [] ->
     entriesOf db1 oid = [insertedEntry order now1 t1] /\
     entriesOf db2 oid = [updatedEntry order now2 t2] /\
     entriesOf db3 oid = [TrackingOrder.set_updatedAt (ServerTime t3)
                            (updatedEntry order now2 t2)]) /\
  (forall e rest, entriesOf db oid = e :: rest ->
     entriesOf db1 oid = updatedEntry order now1 t1 :: rest) /\
  (TrackingOrder.createdAt (insertedEntry order now1 t1) = ServerTime t1 /\
   TrackingOrder.updatedAt (insertedEntry order now1 t1) = ServerTime t1 /\
   TrackingOrder.createdAt (updatedEntry order now2 t2) =
     DateOfString (OrderDetails.createdAt (Order.orderDetails order)) /\
   TrackingOrder.updatedAt (updatedEntry order now2 t2) = ServerTime t2) /\
  (forall other, other <> oid -> entriesOf db1 other = entriesOf db other) /\
  (orders db1 = orders db /\ stocks db1 = stocks db /\
   stockHistory db1 = stockHistory db /\ sales db1 = sales db).
Proof.
  cbv zeta. rewrite !entriesOf_save.
  split; [|split; [|split; [|split; [|split; [|split]]]]].
  - destruct (entriesOf db (Order.id order)) as [|e rest]; reflexivity.
  - destruct (entriesOf db (Order.id order)) as [|e rest]; reflexivity.
  - intros ->. repeat split.
  - intros e rest ->. reflexivity.
  - repeat split.
  - intros other Hne. apply entriesOf_save_other, Hne.
  - repeat split.
Qed.

(** C6 does not hold as stated: the entry inserted at server time 100 has
    that time as its creation timestamp; applying the same order state
    again overwrites it with the order's creation date. *)
Lemma saveTrackingOrder_counterexample :
  let od := OrderDetails.mk "10:00" "2024-01-02" "Order Confirmed" 30 "Cash"
              None None "2024-01-01T08:00:00.000Z" None None in
  let o := Order.mk "o1" "u1" (Some (UserDetails.mk "Ana" "Cruz")) od []
             (Some "orders/o1") in
  let db := mkDb ∅ [] [] [] [] in
  let db1 := saveTrackingOrder db o (mkDate 99 "T99") 100 0 in
  let db2 := saveTrackingOrder db1 o (mkDate 199 "T199") 200 0 in
  visible o = true /\
  map TrackingOrder.createdAt (entriesOf db1 "o1") = [ServerTime 100] /\
  map TrackingOrder.createdAt (entriesOf db2 "o1") =
    [DateOfString "2024-01-01T08:00:00.000Z"] /\
  map TrackingOrder.createdAt (entriesOf db2 "o1") <>
    map TrackingOrder.createdAt (entriesOf db1 "o1").
Proof. cbv zeta. repeat split; try reflexivity. discriminate. Qed.

(** ** Transactions of two clients on one stock record *)

(** A client that runs and commits with no step of another client in
    between does what [handleStatusUpdate] does. *)
Lemma stepClient_alone (c : Client) (db : Db) :
  let s1 := stepClient c db Idle in
  stepClient c (fst s1) (snd s1) =
  (fst (handleStatusUpdate (clientOrders c) db (clientOrderId c)
          (clientNewStatus c) (clientNow c)),
   Done (snd (handleStatusUpdate (clientOrders c) db (clientOrderId c)
                (clientNewStatus c) (clientNow c)))).
Proof.
  cbv zeta. unfold stepClient, handleStatusUpdate, runTransaction.
  destruct (findOrder _ _) as [order|]; [|reflexivity].
  destruct (Order.ref order); [|reflexivity].
  destruct (updateFunction _ _ _ _ _ _) as [e|[[] ws]]; [reflexivity|].
  cbn [fst snd]. rewrite decide_True by reflexivity. reflexivity.
Qed.

(** C8 on the code. Stock record s1 holds 5; orders a and b each ask for 3.
    When both update functions run before either commit, both commits go
    through (each transaction read only its own order document with
    [transaction.get], the stock was read by a plain query): both callers
    are told of success, both orders are "Ready for Pickup", the record
    ends at 2 and the history has two entries, each from 5 to 2. *)
Theorem concurrent_ready_both_commit :
  let now := mkDate 5 "T5" in
  let od := OrderDetails.mk "10:00" "2024-01-02" "Preparing Order" 30 "Cash"
              None None "2024-01-01" None None in
  let it := Item.mk "c1" "Small" ["ube"] 3 10 in
  let oa := Order.mk "a" "u1" None od [it] (Some "orders/a") in
  let ob := Order.mk "b" "u2" None od [it] (Some "orders/b") in
  let db := mkDb {[ "a" := OrderDoc.mk "u1" od [it]; "b" := OrderDoc.mk "u2" od [it] ]}
              [Stock.mk "s1" "Small" ["ube"] 5 (mkDate 1 "T1")] [] [] [] in
  let clients := [mkClient [oa; ob] "a" "Ready for Pickup" now;
                  mkClient [oa; ob] "b" "Ready for Pickup" now] in
  let r := exec clients [0; 1; 0; 1]%nat (db, [Idle; Idle]) in
  snd r = [Done (Alerted "Order status updated successfully!");
           Done (Alerted "Order status updated successfully!")] /\
  map Stock.quantity (stocks (fst r)) = [2] /\
  map StockHistory.previousStock (stockHistory (fst r)) = [5; 5] /\
  map StockHistory.currentStock (stockHistory (fst r)) = [2; 2] /\
  (OrderDetails.status ∘ OrderDoc.orderDetails) <$> orders (fst r) !! "a" =
    Some "Ready for Pickup" /\
  (OrderDetails.status ∘ OrderDoc.orderDetails) <$> orders (fst r) !! "b" =
    Some "Ready for Pickup".
Proof. cbv zeta. repeat split; vm_compute; reflexivity. Qed.

(** The same two clients one after the other: the second is refused. *)
Lemma serial_ready_one_commits :
  let now := mkDate 5 "T5" in
  let od := OrderDetails.mk "10:00" "2024-01-02" "Preparing Order" 30 "Cash"
              None None "2024-01-01" None None in
  let it := Item.mk "c1" "Small" ["ube"] 3 10 in
  let oa := Order.mk "a" "u1" None od [it] (Some "orders/a") in
  let ob := Order.mk "b" "u2" None od [it] (Some "orders/b") in
  let db := mkDb {[ "a" := OrderDoc.mk "u1" od [it]; "b" := OrderDoc.mk "u2" od [it] ]}
              [Stock.mk "s1" "Small" ["ube"] 5 (mkDate 1 "T1")] [] [] [] in
  let clients := [mkClient [oa; ob] "a" "Ready for Pickup" now;
                  mkClient [oa; ob] "b" "Ready for Pickup" now] in
  let r := exec clients [0; 0; 1; 1]%nat (db, [Idle; Idle]) in
  snd r = [Done (Alerted "Order status updated successfully!");
           Done (Alerted "Insufficient stock for Small with varieties ube")] /\
  map Stock.quantity (stocks (fst r)) = [2] /\
  map StockHistory.previousStock (stockHistory (fst r)) = [5] /\
  map StockHistory.currentStock (stockHistory (fst r)) = [2].
Proof. cbv zeta. repeat split; vm_compute; reflexivity. Qed.

(** * Further properties of the page *)

(** ** Customer names *)

Lemma split_cons (sep : ascii) (s : string) :
  exists part parts, split sep s = part :: parts.
Proof.
  induction s as [|c s IH]; simpl; [eauto|].
  destruct (Ascii.eqb c sep); [eauto|].
  destruct IH as (part & parts & ->). eauto.
Qed.

Lemma join_cons_char (sep : string) (c : ascii) (part : string) (parts : list string) :
  join sep (String c part :: parts) = String c (join sep (part :: parts)).
Proof. destruct parts; reflexivity. Qed.

(** Joining the parts of a split with the separator gives the string back. *)
Lemma join_split (sep : ascii) (s : string) :
  join (String sep "") (split sep s) = s.
Proof.
  induction s as [|c s IH]; [reflexivity|]. simpl.
  destruct (Ascii.eqb_spec c sep) as [->|Hne].
  - destruct (split_cons sep s) as (part & parts & Hs). rewrite Hs in *.
    cbn [join]. simpl. rewrite <- IH. reflexivity.
  - destruct (split_cons sep s) as (part & parts & Hs). rewrite Hs in *.
    rewrite join_cons_char, IH. reflexivity.
Qed.

Lemma split_no_sep (sep : ascii) (s : string) :
  ~ In sep (list_ascii_of_string s) -> split sep s = [s].
Proof.
  induction s as [|c s IH]; intros Hn; [reflexivity|]. simpl in *.
  destruct (Ascii.eqb_spec c sep) as [->|Hne]; [tauto|].
  rewrite IH by tauto. reflexivity.
Qed.

Lemma split_first (sep : ascii) (f rest : string) :
  ~ In sep (list_ascii_of_string f) ->
  split sep (f +:+ String sep rest) = f :: split sep rest.
Proof.
  induction f as [|c f IH]; intros Hn; simpl in *.
  - rewrite Ascii.eqb_refl. reflexivity.
  - destruct (Ascii.eqb_spec c sep) as [->|Hne]; [tauto|].
    rewrite IH by tauto. reflexivity.
Qed.

(** X1. A customer stored under a full name "first rest", where "first" has
    no space and "rest" is not empty, resolves to first name "first" and
    last name "rest" (spaces inside "rest" kept), so that the name shown,
    first name, space, last name, is the stored name again. *)
Theorem fetchUserDetails_full_name
    (customers : gmap string Customer.t) (userId : string) (data : Customer.t)
    (first rest : string) :
  customers !! userId = Some data ->
  Customer.name data = Some (first +:+ " " +:+ rest) ->
  ~ In " "%char (list_ascii_of_string first) ->
  rest <> "" ->
  fetchUserDetails customers userId = Some (UserDetails.mk first rest) /\
  Some (fullName (UserDetails.mk first rest)) = Customer.name data.
Proof.
  intros Hc Hn Hf Hr. unfold fetchUserDetails. rewrite Hc, Hn.
  split; [|reflexivity].
  assert (Hs : split " " (first +:+ " " +:+ rest) = first :: split " " rest)
    by (apply (split_first " "%char), Hf).
  destruct (first +:+ " " +:+ rest) as [|c n] eqn:Hnm.
  { destruct first; discriminate. }
  cbv zeta. rewrite Hs. cbn [hd tl].
  rewrite (join_split " "%char rest). destruct rest; [congruence | reflexivity].
Qed.

Lemma fetchUserDetails_full_name_witness :
  fetchUserDetails {[ "u1" := Customer.mk (Some "Ana Maria Cruz") None None ]} "u1"
  = Some (UserDetails.mk "Ana" "Maria Cruz").
Proof.
  refine (proj1 (fetchUserDetails_full_name _ "u1"
                   (Customer.mk (Some "Ana Maria Cruz") None None)
                   "Ana" "Maria Cruz" _ _ _ _)).
  - reflexivity.
  - reflexivity.
  - simpl. intuition discriminate.
  - discriminate.
Defined.

(** X2. A customer that is not in the directory resolves to nothing. One
    that is there always resolves, to a last name that is never empty:
    "N/A" stands in for a missing or empty one. A full name of one word
    gives that word as first name and "N/A" as last name; a full name that
    starts with a space gives an empty first name. *)
Theorem fetchUserDetails_edges
    (customers : gmap string Customer.t) (userId : string) :
  (customers !! userId = None -> fetchUserDetails customers userId = None) /\
  (forall data, customers !! userId = Some data ->
     exists u, fetchUserDetails customers userId = Some u /\
               UserDetails.lastName u <> "" /\
               (forall c n, Customer.name data = Some (String c n) ->
                  ~ In " "%char (list_ascii_of_string (String c n)) ->
                  u = UserDetails.mk (String c n) "N/A") /\
               (forall n, Customer.name data = Some (String " " n) ->
                  UserDetails.firstName u = "") /\
               (Customer.name data = None \/ Customer.name data = Some "" ->
                  u = UserDetails.mk (orDefault (Customer.firstName data) "N/A")
                                     (orDefault (Customer.lastName data) "N/A"))).
Proof.
  unfold fetchUserDetails. split; [intros ->; reflexivity|].
  intros data ->. destruct (Customer.name data) as [[|c n]|] eqn:Hn.
  - eexists. split; [reflexivity|]. repeat split.
    + simpl. destruct (Customer.lastName data) as [[|? ?]|]; discriminate.
    + discriminate.
    + discriminate.
  - eexists. split; [reflexivity|]. repeat split.
    + simpl. destruct (join _ _); discriminate.
    + intros c' n' [= <- <-] Hns. cbv zeta.
      rewrite (split_no_sep " "%char) by exact Hns. reflexivity.
    + intros n' [= -> <-]. reflexivity.
    + intros [H|H]; discriminate.
  - eexists. split; [reflexivity|]. repeat split.
    + simpl. destruct (Customer.lastName data) as [[|? ?]|]; discriminate.
    + discriminate.
    + discriminate.
Qed.

(** ** The snapshot listener *)

Lemma saveAll_frame (orderList : list Order.t) env : forall db k,
  orders (saveAll db orderList env k) = orders db /\
  stocks (saveAll db orderList env k) = stocks db /\
  stockHistory (saveAll db orderList env k) = stockHistory db /\
  sales (saveAll db orderList env k) = sales db.
Proof.
  induction orderList as [|o l IH]; intros db k; simpl; [auto|].
  destruct (env k) as [[now t] pos].
  destruct (IH (saveTrackingOrder db o now t pos) (S k)) as (-> & -> & -> & ->).
  repeat split.
Qed.

Lemma saveAll_other (orderList : list Order.t) env id : forall db k,
  ~ In id (map Order.id orderList) ->
  entriesOf (saveAll db orderList env k) id = entriesOf db id.
Proof.
  induction orderList as [|o l IH]; intros db k Hn; simpl in *; [reflexivity|].
  destruct (env k) as [[now t] pos]. rewrite IH by tauto.
  apply entriesOf_save_other. intros ->. tauto.
Qed.

Lemma saveAll_count (orderList : list Order.t) env id : forall db k,
  NoDup (map Order.id orderList) ->
  In id (map Order.id orderList) ->
  length (entriesOf (saveAll db orderList env k) id) =
  Nat.max 1 (length (entriesOf db id)).
Proof.
  induction orderList as [|o l IH]; intros db k Hnd Hin; simpl in *; [tauto|].
  apply NoDup_cons in Hnd as [Ho Hnd]. destruct (env k) as [[now t] pos].
  destruct Hin as [<-|Hin].
  - rewrite saveAll_other by (rewrite <- list_elem_of_In; exact Ho).
    rewrite entriesOf_save. destruct (entriesOf db (Order.id o)); reflexivity.
  - rewrite IH by assumption. rewrite entriesOf_save_other; [reflexivity|].
    intros ->. apply Ho, list_elem_of_In, Hin.
Qed.

Lemma visible_gate (o : Order.t) :
  visible o = true ->
  OrderDetails.paymentStatus (Order.orderDetails o) <> Some "pending" /\
  (OrderDetails.paymentMethod (Order.orderDetails o) = "GCash" ->
   OrderDetails.paymentStatus (Order.orderDetails o) = Some "approved").
Proof.
  unfold visible.
  destruct (String.eqb_spec (OrderDetails.paymentMethod (Order.orderDetails o)) "GCash")
    as [Hm|Hm]; destruct (OrderDetails.paymentStatus _) as [s|]; try discriminate.
  - intros H. apply String.eqb_eq in H. subst. split; [discriminate | reflexivity].
  - intros H. apply negb_true_iff, String.eqb_neq in H. split; congruence.
  - intros _. split; [discriminate | congruence].
Qed.

Lemma filterVisible_ids customers (docs : list (string * OrderDoc.t)) :
  NoDup (map fst docs) ->
  NoDup (map Order.id (filterVisible (map (toOrder customers) docs))).
Proof.
  unfold filterVisible. induction docs as [|d docs IH]; intros Hnd; simpl.
  - constructor.
  - simpl in Hnd. apply NoDup_cons in Hnd as [Hd Hnd].
    destruct (visible (toOrder customers d)); [|apply IH, Hnd].
    simpl. apply NoDup_cons. split; [|apply IH, Hnd].
    intros Hin. apply Hd. apply list_elem_of_In in Hin. apply list_elem_of_In.
    apply in_map_iff in Hin as (o & Ho & Hin). apply filter_In in Hin as [Hin _].
    apply in_map_iff in Hin as (d' & <- & Hin). simpl in Ho. rewrite <- Ho.
    apply in_map, Hin.
Qed.

(** X3. After a snapshot the page holds exactly the snapshot's orders that
    pass the payment gate, in snapshot order, each with its document's id
    and data and a reference: no order whose payment is pending and no
    GCash order that is not approved is ever held. The listener writes to
    [tracking_orders] only. *)
Theorem onSnapshot_state
    (customers : gmap string Customer.t) (db : Db)
    (docs : list (string * OrderDoc.t)) (env : nat -> Date * Z * nat) :
  let r := onSnapshot customers db docs env in
  snd r = List.filter visible (map (toOrder customers) docs) /\
  (forall o, In o (snd r) ->
     (exists d, In d docs /\ Order.id o = fst d /\
                Order.items o = OrderDoc.items (snd d) /\
                Order.orderDetails o = OrderDoc.orderDetails (snd d) /\
                Order.userDetails o =
                  fetchUserDetails customers (OrderDoc.userId (snd d))) /\
     is_Some (Order.ref o) /\
     OrderDetails.paymentStatus (Order.orderDetails o) <> Some "pending" /\
     (OrderDetails.paymentMethod (Order.orderDetails o) = "GCash" ->
      OrderDetails.paymentStatus (Order.orderDetails o) = Some "approved")) /\
  orders (fst r) = orders db /\ stocks (fst r) = stocks db /\
  stockHistory (fst r) = stockHistory db /\ sales (fst r) = sales db.
Proof.
  cbv zeta. unfold onSnapshot, filterVisible. cbn [fst snd].
  split; [reflexivity|]. split; [|apply saveAll_frame].
  intros o Hin. apply filter_In in Hin as [Hin Hv].
  apply in_map_iff in Hin as (d & <- & Hd).
  split; [exists d; repeat split; auto|]. split; [simpl; eauto|].
  apply visible_gate, Hv.
Qed.

(** X4. When the snapshot's documents have distinct ids, the listener
    leaves every held order with at least one projection entry and adds no
    duplicate: an order it holds has one entry if it had none and as many
    as before otherwise; the entries of every other order id are exactly as
    before. *)
Theorem onSnapshot_projection
    (customers : gmap string Customer.t) (db : Db)
    (docs : list (string * OrderDoc.t)) (env : nat -> Date * Z * nat) :
  NoDup (map fst docs) ->
  let r := onSnapshot customers db docs env in
  (forall o, In o (snd r) ->
     length (entriesOf (fst r) (Order.id o)) =
     Nat.max 1 (length (entriesOf db (Order.id o)))) /\
  (forall id, ~ In id (map Order.id (snd r)) ->
     entriesOf (fst r) id = entriesOf db id).
Proof.
  intros Hnd. cbv zeta. unfold onSnapshot. cbn [fst snd]. split.
  - intros o Hin. apply saveAll_count.
    + apply filterVisible_ids, Hnd.
    + apply in_map, Hin.
  - intros id Hn. apply saveAll_other, Hn.
Qed.

Lemma onSnapshot_projection_witness :
  let od := OrderDetails.mk "10:00" "2024-01-02" "Order Confirmed" 30 "Cash"
              None None "2024-01-01" None None in
  let og := OrderDetails.mk "11:00" "2024-01-02" "Order Confirmed" 50 "GCash"
              (Some "pending") None "2024-01-01" None None in
  let docs := [("o1", OrderDoc.mk "u1" od []); ("o2", OrderDoc.mk "u2" og [])] in
  let db := mkDb (list_to_map docs) [] [] [] [] in
  let r := onSnapshot ∅ db docs (fun k => (mkDate 5 "T5", 6, 0%nat)) in
  forallb (fun o => Nat.eqb (length (entriesOf (fst r) (Order.id o))) 1) (snd r)
  = true.
Proof.
  cbv zeta.
  pose proof (proj1 (onSnapshot_projection ∅
    (mkDb (list_to_map
       [("o1", OrderDoc.mk "u1" (OrderDetails.mk "10:00" "2024-01-02"
            "Order Confirmed" 30 "Cash" None None "2024-01-01" None None) []);
        ("o2", OrderDoc.mk "u2" (OrderDetails.mk "11:00" "2024-01-02"
            "Order Confirmed" 50 "GCash" (Some "pending") None "2024-01-01"
            None None) [])]) [] [] [] [])
    [("o1", OrderDoc.mk "u1" (OrderDetails.mk "10:00" "2024-01-02"
         "Order Confirmed" 30 "Cash" None None "2024-01-01" None None) []);
     ("o2", OrderDoc.mk "u2" (OrderDetails.mk "11:00" "2024-01-02"
         "Order Confirmed" 50 "GCash" (Some "pending") None "2024-01-01"
         None None) [])]
    (fun k => (mkDate 5 "T5", 6, 0%nat))
    ltac:(simpl; repeat constructor; rewrite ?list_elem_of_In; simpl;
          intuition discriminate))) as H.
  apply forallb_forall. intros o Ho. apply Nat.eqb_eq.
  rewrite (H o Ho). destruct Ho as [<-|[]]. reflexivity.
Defined.

(** X5. For an order the page holds after a snapshot, [handleStatusUpdate]
    never takes the silent return of its guard: whatever the store and the
    target status, the caller gets an alert. When the snapshot's ids are
    distinct and the store still has the snapshot's document, the order is
    found under its id with a reference and an existing document. *)
Theorem listed_order_is_loaded
    (customers : gmap string Customer.t) (db0 : Db)
    (docs : list (string * OrderDoc.t)) (env : nat -> Date * Z * nat)
    (o : Order.t) :
  In o (snd (onSnapshot customers db0 docs env)) ->
  (forall db newStatus now,
     exists msg,
       snd (handleStatusUpdate (snd (onSnapshot customers db0 docs env)) db
              (Order.id o) newStatus now) = Alerted msg) /\
  (NoDup (map fst docs) ->
   forall db doc, orders db !! Order.id o = Some doc ->
     loaded (snd (onSnapshot customers db0 docs env)) db (Order.id o) o doc).
Proof.
  intros Hin. unfold onSnapshot in *. cbn [snd] in *.
  set (st := filterVisible (map (toOrder customers) docs)) in *.
  assert (Href : forall x, In x st -> is_Some (Order.ref x)).
  { intros x Hx. apply filter_In in Hx as [Hx _].
    apply in_map_iff in Hx as (d & <- & _). simpl. eauto. }
  split.
  - intros db newStatus now. unfold handleStatusUpdate.
    destruct (findOrder st (Order.id o)) as [o'|] eqn:Hf.
    + apply find_some in Hf as [Ho' _]. destruct (Href o' Ho') as [r ->].
      destruct (runTransaction _ _); eauto.
    + pose proof (find_none _ _ Hf o Hin) as Hn. simpl in Hn.
      rewrite String.eqb_refl in Hn. discriminate.
  - intros Hnd db doc Hd. split; [|split; [apply Href, Hin | exact Hd]].
    apply (filterVisible_ids customers) in Hnd. fold st in Hnd.
    unfold findOrder. clear Href. induction st as [|x st IH]; [destruct Hin|].
    simpl in *. apply NoDup_cons in Hnd as [Hx Hnd].
    destruct (String.eqb_spec (Order.id x) (Order.id o)) as [He|He].
    + destruct Hin as [->|Hin]; [reflexivity|]. exfalso. apply Hx.
      rewrite He. apply list_elem_of_In, in_map, Hin.
    + destruct Hin as [->|Hin]; [congruence | apply IH; assumption].
Qed.

Lemma listed_order_is_loaded_witness :
  let od := OrderDetails.mk "10:00" "2024-01-02" "Order Confirmed" 30 "Cash"
              None None "2024-01-01" None None in
  let docs := [("o1", OrderDoc.mk "u1" od [])] in
  let db := mkDb (list_to_map docs) [] [] [] [] in
  let env := fun k : nat => (mkDate 5 "T5", 6, 0%nat) in
  exists msg,
    snd (handleStatusUpdate (snd (onSnapshot ∅ db docs env)) db "o1"
           "Cancelled" (mkDate 7 "T7")) = Alerted msg.
Proof.
  cbv zeta.
  refine (proj1 (listed_order_is_loaded ∅ _ _ _
                   (toOrder ∅ ("o1", OrderDoc.mk "u1" _ [])) _) _ "Cancelled" _).
  left. reflexivity.
Defined.

(** ** What [handleStatusUpdate] keeps, whatever the call *)

(** A call leaves the store alone or commits one of three buffers. *)
Lemma handleStatusUpdate_effect orderList db orderId newStatus now :
  let r := handleStatusUpdate orderList db orderId newStatus now in
  fst r = db \/
  exists order doc,
    loaded orderList db orderId order doc /\
    ((newStatus = "Ready for Pickup" /\
      Forall (available db) (Order.items order) /\
      fst r = commit db
                (concat (map (itemWrites db orderId now) (Order.items order)) ++
                 [UpdateOrder orderId newStatus (toISOString now) None])) \/
     (newStatus = "Completed" /\
      fst r = commit db
                [SetSale (saleOf order orderId now);
                 UpdateOrder orderId newStatus (toISOString now)
                   (Some (toISOString now))]) \/
     (newStatus <> "Ready for Pickup" /\ newStatus <> "Completed" /\
      fst r = commit db [UpdateOrder orderId newStatus (toISOString now) None])).
Proof.
  cbv zeta.
  destruct (handleStatusUpdate_cases orderList db orderId newStatus now)
    as [[out Heq]|(order & doc & Hld)]; [rewrite Heq; left; reflexivity|].
  rewrite (handleStatusUpdate_loaded _ _ _ _ _ order doc Hld).
  pose proof Hld as (_ & _ & Hd).
  destruct (String.eqb_spec newStatus "Ready for Pickup") as [->|H1].
  - rewrite (updateFunction_ready _ _ _ _ doc Hd).
    destruct (firstError db (Order.items order)) eqn:Hf; [left; reflexivity|].
    right. exists order, doc. split; [exact Hld|]. left.
    split; [reflexivity|]. split; [apply firstError_None, Hf | reflexivity].
  - destruct (String.eqb_spec newStatus "Completed") as [->|H2].
    + rewrite (updateFunction_completed _ _ _ _ doc Hd).
      right. exists order, doc. split; [exact Hld|]. right. left. auto.
    + rewrite (updateFunction_other _ _ _ _ _ doc Hd H1 H2).
      right. exists order, doc. split; [exact Hld|]. right. right. auto.
Qed.

Lemma updateStockList_Forall (P : Stock.t -> Prop) sid q d (l : list Stock.t) :
  (forall s, P s -> P (setQuantity q d s)) ->
  Forall P l -> Forall P (updateStockList sid q d l).
Proof.
  intros HP Hl. unfold updateStockList. apply Forall_map.
  eapply Forall_impl; [exact Hl|]. intros s Hs. simpl.
  destruct (String.eqb _ _); auto.
Qed.

Lemma fold_itemStockUpdate_Forall (P : Stock.t -> Prop) db now items :
  (forall item s q d, In item items -> firstMatch db item = Some s ->
     q = Stock.quantity s - Item.productQuantity item ->
     forall x, P x -> P (setQuantity q d x)) ->
  forall l, Forall P l -> Forall P (fold_left (itemStockUpdate db now) items l).
Proof.
  induction items as [|item rest IH]; intros HP l Hl; simpl; [exact Hl|].
  apply IH; [intros i s q d Hi; apply HP; right; exact Hi|].
  unfold itemStockUpdate. destruct (firstMatch db item) as [s|] eqn:Hs; [|exact Hl].
  apply updateStockList_Forall; [|exact Hl].
  eapply HP; [left|..]; eauto.
Qed.

Lemma stocks_after_call orderList db orderId newStatus now :
  let r := handleStatusUpdate orderList db orderId newStatus now in
  stocks (fst r) = stocks db \/
  exists order,
    Forall (available db) (Order.items order) /\
    stocks (fst r) = fold_left (itemStockUpdate db now) (Order.items order) (stocks db).
Proof.
  cbv zeta.
  destruct (handleStatusUpdate_effect orderList db orderId newStatus now)
    as [->|(order & doc & _ & [(_ & Hav & ->)|[(_ & ->)|(_ & _ & ->)]])];
    try (left; reflexivity).
  right. exists order. split; [exact Hav|]. rewrite commit_app.
  destruct (commit_itemWrites db orderId now (Order.items order) db)
    as (_ & _ & _ & _ & Hk). simpl. exact Hk.
Qed.

(** X6. Stock never goes negative: if every stock record holds a
    non-negative quantity before a call of [handleStatusUpdate], every
    record does after it, whatever the order, the target status and the
    outcome. *)
Theorem stock_never_negative
    (orderList : list Order.t) (db : Db) (orderId newStatus : string) (now : Date) :
  Forall (fun s => 0 <= Stock.quantity s) (stocks db) ->
  Forall (fun s => 0 <= Stock.quantity s)
         (stocks (fst (handleStatusUpdate orderList db orderId newStatus now))).
Proof.
  intros Hpos.
  destruct (stocks_after_call orderList db orderId newStatus now)
    as [->|(order & Hav & ->)]; [exact Hpos|].
  apply fold_itemStockUpdate_Forall; [|exact Hpos].
  intros item s q d Hin Hs -> x _. simpl.
  rewrite Forall_forall in Hav. destruct (Hav item) as (s' & Hs' & Hq).
  { apply list_elem_of_In, Hin. }
  rewrite Hs in Hs'. injection Hs' as <-. lia.
Qed.

Lemma stock_never_negative_witness :
  let now := mkDate 5 "T5" in
  let od := OrderDetails.mk "10:00" "2024-01-02" "Preparing Order" 40 "Cash"
              None None "2024-01-01" None None in
  let items := [Item.mk "c1" "Small" ["ube"] 3 10; Item.mk "c2" "Small" ["ube"] 5 10] in
  let o := Order.mk "o1" "u1" None od items (Some "orders/o1") in
  let db := mkDb {[ "o1" := OrderDoc.mk "u1" od items ]}
              [Stock.mk "s1" "Small" ["ube"] 5 (mkDate 1 "T1")] [] [] [] in
  Forall (fun s => 0 <= Stock.quantity s)
         (stocks (fst (handleStatusUpdate [o] db "o1" "Ready for Pickup" now))).
Proof.
  cbv zeta. apply stock_never_negative.
  repeat constructor. simpl. lia.
Defined.

(** X7. A call of [handleStatusUpdate] never adds, removes or reorders
    stock records and never changes a record's id, size or varieties: only
    quantities and last-updated times can differ afterwards. *)
Theorem stock_records_keep_identity
    (orderList : list Order.t) (db : Db) (orderId newStatus : string) (now : Date) :
  map (fun s => (Stock.id s, Stock.sizeName s, Stock.varieties s))
      (stocks (fst (handleStatusUpdate orderList db orderId newStatus now))) =
  map (fun s => (Stock.id s, Stock.sizeName s, Stock.varieties s)) (stocks db).
Proof.
  destruct (stocks_after_call orderList db orderId newStatus now)
    as [->|(order & _ & ->)]; [reflexivity|].
  generalize (stocks db). induction (Order.items order) as [|item rest IH];
    intros l; simpl; [reflexivity|].
  rewrite IH. unfold itemStockUpdate.
  destruct (firstMatch db item) as [s|]; [|reflexivity].
  unfold updateStockList. rewrite map_map. apply map_ext.
  intros x. destruct (String.eqb _ _); reflexivity.
Qed.

Lemma itemHistory_entries db orderId now items :
  Forall (available db) items ->
  Forall (fun h =>
            StockHistory.type h = "out" /\
            StockHistory.isDeleted h = false /\
            StockHistory.updatedBy h = "System" /\
            StockHistory.remarks h = "Order " +:+ orderId +:+ " ready for pickup" /\
            StockHistory.currentStock h =
              StockHistory.previousStock h - StockHistory.quantity h /\
            0 <= StockHistory.currentStock h /\
            exists s, In s (stocks db) /\ StockHistory.stockId h = Stock.id s /\
                      StockHistory.previousStock h = Stock.quantity s)
         (omap (itemHistory db orderId now) items).
Proof.
  induction 1 as [|item rest (s & Hs & Hq) _ IH]; [constructor|].
  cbn [omap list_omap]. unfold itemHistory at 1. rewrite Hs. simpl.
  constructor; [|exact IH]. simpl. repeat split; try lia.
  exists s. split; [apply (firstMatch_In _ _ _ Hs) | auto].
Qed.

(** X8. The stock history and the sales ledger only grow: a call of
    [handleStatusUpdate] keeps every earlier entry in place and appends at
    most one sales record. Every history entry it appends is of type 'out',
    not deleted, by "System", names the order in its remark, refers to a
    stock record of the store with that record's quantity as previousStock,
    and has currentStock = previousStock - quantity >= 0. The projection is
    not touched. *)
Theorem ledgers_are_append_only
    (orderList : list Order.t) (db : Db) (orderId newStatus : string) (now : Date) :
  let r := handleStatusUpdate orderList db orderId newStatus now in
  (exists entries,
     stockHistory (fst r) = stockHistory db ++ entries /\
     Forall (fun h =>
               StockHistory.type h = "out" /\
               StockHistory.isDeleted h = false /\
               StockHistory.updatedBy h = "System" /\
               StockHistory.remarks h = "Order " +:+ orderId +:+ " ready for pickup" /\
               StockHistory.currentStock h =
                 StockHistory.previousStock h - StockHistory.quantity h /\
               0 <= StockHistory.currentStock h /\
               exists s, In s (stocks db) /\ StockHistory.stockId h = Stock.id s /\
                         StockHistory.previousStock h = Stock.quantity s)
            entries) /\
  (exists records,
     sales (fst r) = sales db ++ records /\ (length records <= 1)%nat /\
     Forall (fun s => Sale.orderId s = orderId /\ newStatus = "Completed") records) /\
  tracking_orders (fst r) = tracking_orders db.
Proof.
  cbv zeta.
  destruct (handleStatusUpdate_effect orderList db orderId newStatus now)
    as [->|(order & doc & _ & [(_ & Hav & ->)|[(-> & ->)|(_ & _ & ->)]])].
  - split; [exists []|split; [exists []|reflexivity]]; rewrite app_nil_r; auto.
  - rewrite commit_app.
    destruct (commit_itemWrites db orderId now (Order.items order) db)
      as (_ & Hs & Ht & Hh & _). simpl. rewrite Hs, Ht, Hh.
    split; [|split; [exists []; rewrite app_nil_r; auto | reflexivity]].
    eexists. split; [reflexivity|]. apply itemHistory_entries, Hav.
  - simpl. split; [exists []; rewrite app_nil_r; auto|].
    split; [|reflexivity]. eexists. split; [reflexivity|].
    split; [simpl; lia|]. repeat constructor.
  - simpl. split; [exists []|split; [exists []|reflexivity]];
      rewrite app_nil_r; auto.
Qed.

(** X9. A call of [handleStatusUpdate] never creates or deletes an order
    document and never touches another order's document; in the document
    it addresses it keeps the customer id, the line items, the amount, the
    payment fields, the pickup slot and the creation time. *)
Theorem order_documents_keep_content
    (orderList : list Order.t) (db : Db) (orderId newStatus : string) (now : Date) :
  let db' := fst (handleStatusUpdate orderList db orderId newStatus now) in
  dom (orders db') = dom (orders db) /\
  (forall other, other <> orderId -> orders db' !! other = orders db !! other) /\
  (forall doc', orders db' !! orderId = Some doc' ->
     exists doc, orders db !! orderId = Some doc /\
       OrderDoc.userId doc' = OrderDoc.userId doc /\
       OrderDoc.items doc' = OrderDoc.items doc /\
       OrderDetails.totalAmount (OrderDoc.orderDetails doc') =
         OrderDetails.totalAmount (OrderDoc.orderDetails doc) /\
       OrderDetails.paymentMethod (OrderDoc.orderDetails doc') =
         OrderDetails.paymentMethod (OrderDoc.orderDetails doc) /\
       OrderDetails.paymentStatus (OrderDoc.orderDetails doc') =
         OrderDetails.paymentStatus (OrderDoc.orderDetails doc) /\
       OrderDetails.gcashReference (OrderDoc.orderDetails doc') =
         OrderDetails.gcashReference (OrderDoc.orderDetails doc) /\
       OrderDetails.pickupTime (OrderDoc.orderDetails doc') =
         OrderDetails.pickupTime (OrderDoc.orderDetails doc) /\
       OrderDetails.pickupDate (OrderDoc.orderDetails doc') =
         OrderDetails.pickupDate (OrderDoc.orderDetails doc) /\
       OrderDetails.createdAt (OrderDoc.orderDetails doc') =
         OrderDetails.createdAt (OrderDoc.orderDetails doc)).
Proof.
  cbv zeta.
  assert (Halter : forall st u c,
    let m := alter (setOrderFields st u c) orderId (orders db) in
    dom m = dom (orders db) /\
    (forall other, other <> orderId -> m !! other = orders db !! other) /\
    (forall doc', m !! orderId = Some doc' ->
       exists doc, orders db !! orderId = Some doc /\ doc' = setOrderFields st u c doc)).
  { intros st u c. cbv zeta. split; [apply dom_alter_L|]. split.
    - intros other Hne. apply lookup_alter_ne. congruence.
    - intros doc'. rewrite lookup_alter_eq.
      destruct (orders db !! orderId) as [doc|]; [|discriminate].
      intros [= <-]. eauto. }
  assert (Hfields : forall st u c doc doc',
    doc' = setOrderFields st u c doc ->
    OrderDoc.userId doc' = OrderDoc.userId doc /\
    OrderDoc.items doc' = OrderDoc.items doc /\
    OrderDetails.totalAmount (OrderDoc.orderDetails doc') =
      OrderDetails.totalAmount (OrderDoc.orderDetails doc) /\
    OrderDetails.paymentMethod (OrderDoc.orderDetails doc') =
      OrderDetails.paymentMethod (OrderDoc.orderDetails doc) /\
    OrderDetails.paymentStatus (OrderDoc.orderDetails doc') =
      OrderDetails.paymentStatus (OrderDoc.orderDetails doc) /\
    OrderDetails.gcashReference (OrderDoc.orderDetails doc') =
      OrderDetails.gcashReference (OrderDoc.orderDetails doc) /\
    OrderDetails.pickupTime (OrderDoc.orderDetails doc') =
      OrderDetails.pickupTime (OrderDoc.orderDetails doc) /\
    OrderDetails.pickupDate (OrderDoc.orderDetails doc') =
      OrderDetails.pickupDate (OrderDoc.orderDetails doc) /\
    OrderDetails.createdAt (OrderDoc.orderDetails doc') =
      OrderDetails.createdAt (OrderDoc.orderDetails doc)).
  { intros st u c doc doc' ->. destruct c; repeat split. }
  assert (Hgoal : forall st u c m, m = alter (setOrderFields st u c) orderId (orders db) ->
    dom m = dom (orders db) /\
    (forall other, other <> orderId -> m !! other = orders db !! other) /\
    (forall doc', m !! orderId = Some doc' ->
       exists doc, orders db !! orderId = Some doc /\
         OrderDoc.userId doc' = OrderDoc.userId doc /\
         OrderDoc.items doc' = OrderDoc.items doc /\
         OrderDetails.totalAmount (OrderDoc.orderDetails doc') =
           OrderDetails.totalAmount (OrderDoc.orderDetails doc) /\
         OrderDetails.paymentMethod (OrderDoc.orderDetails doc') =
           OrderDetails.paymentMethod (OrderDoc.orderDetails doc) /\
         OrderDetails.paymentStatus (OrderDoc.orderDetails doc') =
           OrderDetails.paymentStatus (OrderDoc.orderDetails doc) /\
         OrderDetails.gcashReference (OrderDoc.orderDetails doc') =
           OrderDetails.gcashReference (OrderDoc.orderDetails doc) /\
         OrderDetails.pickupTime (OrderDoc.orderDetails doc') =
           OrderDetails.pickupTime (OrderDoc.orderDetails doc) /\
         OrderDetails.pickupDate (OrderDoc.orderDetails doc') =
           OrderDetails.pickupDate (OrderDoc.orderDetails doc) /\
         OrderDetails.createdAt (OrderDoc.orderDetails doc') =
           OrderDetails.createdAt (OrderDoc.orderDetails doc))).
  { intros st u c m ->. destruct (Halter st u c) as (Hd & Ho & Hs).
    split; [exact Hd|]. split; [exact Ho|].
    intros doc' H. destruct (Hs doc' H) as (doc & Hdoc & Heq).
    exists doc. split; [exact Hdoc|]. eapply Hfields, Heq. }
  destruct (handleStatusUpdate_effect orderList db orderId newStatus now)
    as [->|(order & doc & _ & [(_ & Hav & ->)|[(-> & ->)|(_ & _ & ->)]])].
  - split; [reflexivity|]. split; [reflexivity|].
    intros doc' H. exists doc'. split; [exact H|]. repeat split.
  - rewrite commit_app.
    destruct (commit_itemWrites db orderId now (Order.items order) db)
      as (Ho & _). eapply Hgoal. simpl. rewrite Ho. reflexivity.
  - eapply Hgoal. reflexivity.
  - eapply Hgoal. reflexivity.
Qed.

(** X10. An order that the page still lists, with its reference, but whose
    document is gone from the store: whatever the target status, the call
    alerts "Order not found" and changes nothing; no stock is looked up. *)
Theorem order_document_missing
    (orderList : list Order.t) (db : Db) (orderId newStatus : string)
    (now : Date) (order : Order.t) :
  findOrder orderList orderId = Some order ->
  is_Some (Order.ref order) ->
  orders db !! orderId = None ->
  handleStatusUpdate orderList db orderId newStatus now =
  (db, Alerted "Order not found").
Proof.
  intros Hf [r Hr] Hd. unfold handleStatusUpdate, runTransaction, updateFunction.
  rewrite Hf, Hr, Hd. reflexivity.
Qed.

Lemma order_document_missing_witness :
  let od := OrderDetails.mk "10:00" "2024-01-02" "Preparing Order" 30 "Cash"
              None None "2024-01-01" None None in
  let o := Order.mk "o1" "u1" None od [Item.mk "c1" "Small" ["ube"] 3 10]
             (Some "orders/o1") in
  let db := mkDb ∅ [Stock.mk "s1" "Small" ["ube"] 5 (mkDate 1 "T1")] [] [] [] in
  handleStatusUpdate [o] db "o1" "Ready for Pickup" (mkDate 5 "T5") =
  (db, Alerted "Order not found").
Proof.
  cbv zeta. eapply order_document_missing.
  - reflexivity.
  - eexists. reflexivity.
  - reflexivity.
Defined.

(** ** What the table shows *)

Lemma string_app_nil_r (a : string) : a +:+ "" = a.
Proof. induction a as [|x a IH]; [reflexivity | exact (f_equal (String x) IH)]. Qed.

(** X11. In the rows of the table, which are orders that passed the payment
    gate, the payment badge is never the yellow one: a GCash order shows
    the green badge and the text "GCash (Approved)", any other order the
    blue badge and its payment method alone. *)
Theorem listed_payment_badge (order : Order.t) :
  visible order = true ->
  let od := Order.orderDetails order in
  let badge := getPaymentMethodBadge (OrderDetails.paymentMethod od)
                 (OrderDetails.paymentStatus od) in
  badge <> "bg-yellow-100 text-yellow-800" /\
  (OrderDetails.paymentMethod od = "GCash" ->
   badge = "bg-green-100 text-green-800" /\
   paymentLabel order = "GCash (Approved)") /\
  (OrderDetails.paymentMethod od <> "GCash" ->
   badge = "bg-blue-100 text-blue-800" /\
   paymentLabel order = OrderDetails.paymentMethod od).
Proof.
  intros Hv. cbv zeta. destruct (visible_gate order Hv) as [_ Hg].
  unfold getPaymentMethodBadge, paymentLabel.
  destruct (String.eqb_spec (OrderDetails.paymentMethod (Order.orderDetails order)) "GCash")
    as [Hm|Hm].
  - rewrite (Hg Hm), Hm. split; [discriminate|]. split; [split; reflexivity|].
    intros H. destruct H. reflexivity.
  - split; [discriminate|]. split; [intros H; destruct (Hm H)|].
    intros _. split; [reflexivity|].
    apply string_app_nil_r.
Qed.

Lemma listed_payment_badge_witness :
  paymentLabel
    (Order.mk "o1" "u1" None
       (OrderDetails.mk "10:00" "2024-01-02" "Order Confirmed" 30 "GCash"
          (Some "approved") (Some "ref-1") "2024-01-01" None None) [] None)
  = "GCash (Approved)".
Proof.
  refine (proj2 (proj1 (proj2 (listed_payment_badge _ _)) _)); reflexivity.
Defined.

Lemma toLowerCase_empty (s : string) : toLowerCase s = "" -> s = "".
Proof. destruct s; [reflexivity | discriminate]. Qed.

(** X12. The colour of a status does not depend on letter case: two
    statuses that are equal once lower-cased get the same colour class;
    an absent and an empty status get the grey default. *)
Theorem getStatusColor_ignores_case (s1 s2 : string) :
  toLowerCase s1 = toLowerCase s2 ->
  getStatusColor (Some s1) = getStatusColor (Some s2) /\
  getStatusColor None = getStatusColor (Some "").
Proof.
  intros H. split; [|reflexivity]. unfold getStatusColor.
  destruct s1 as [|c1 s1]; destruct s2 as [|c2 s2]; try discriminate;
    [reflexivity|].
  rewrite H. reflexivity.
Qed.

Lemma getStatusColor_ignores_case_witness :
  getStatusColor (Some "READY for Pickup") = getStatusColor (Some "Ready For PICKUP").
Proof.
  refine (proj1 (getStatusColor_ignores_case _ _ _)). reflexivity.
Defined.

(** ** Search and what the rows show *)

Lemma sliceTo_prefix (n : nat) (s : string) :
  exists rest, s = sliceTo n s +:+ rest.
Proof.
  revert s; induction n as [|n IH]; intros s.
  - exists s. destruct s; reflexivity.
  - destruct s as [|c s]; [exists ""; reflexivity|].
    destruct (IH s) as [rest Hr]. exists rest.
    exact (f_equal (String c) Hr).
Qed.

Lemma sliceTo_length (n : nat) (s : string) :
  String.length (sliceTo n s) = Nat.min n (String.length s).
Proof.
  revert s; induction n as [|n IH]; intros s; [reflexivity|].
  destruct s as [|c s]; [reflexivity|]. simpl. rewrite IH. reflexivity.
Qed.

Lemma containsNoCase_part (s part pre post : string) :
  s = pre +:+ part +:+ post -> containsNoCase s part.
Proof.
  intros ->. exists (toLowerCase pre), (toLowerCase post).
  rewrite !toLowerCase_app. reflexivity.
Qed.

(** Closed goals on concrete text. *)
Ltac ascii_text :=
  cbn; repeat split; try exact I; apply Nat.ltb_lt; vm_compute; reflexivity.

Ltac same_text :=
  cbn; repeat split; try exact I; unfold sameLetter;
  first [ left; reflexivity
        | right; left; split;
          [split; apply Nat.leb_le; vm_compute; reflexivity
          | vm_compute; reflexivity]
        | right; right; split;
          [split; apply Nat.leb_le; vm_compute; reflexivity
          | vm_compute; reflexivity] ].

(** X13. Typing what a row shows finds the row, on ASCII text: an order of
    the list whose id and customer name are ASCII is among the results of
    a search for its displayed short id (the first six characters of the
    id, at most), for its whole id, and for its customer's displayed full
    name, each typed in any case of its letters. *)
Theorem search_finds_what_is_shown
    (orderList : list Order.t) (order : Order.t) (term : string) :
  In order orderList ->
  asciiOrder order ->
  sameText term (shortId order) \/
  sameText term (Order.id order) \/
  (exists u, Order.userDetails order = Some u /\ sameText term (fullName u)) ->
  In order (search orderList term) /\
  (String.length (shortId order) <= 6)%nat.
Proof.
  intros Hin _ Hterm. split; [|unfold shortId; rewrite sliceTo_length; lia].
  unfold search. apply filter_In. split; [exact Hin|].
  apply matchesSearch_spec. unfold containsNoCase.
  destruct Hterm as [Ht|[Ht|(u & Hu & Ht)]];
    apply toLowerCase_sameText in Ht; rewrite Ht.
  - left. destruct (sliceTo_prefix 6 (Order.id order)) as [rest Hr].
    exists "", (toLowerCase rest). simpl. rewrite <- toLowerCase_app.
    unfold shortId. rewrite <- Hr. reflexivity.
  - left. exists "", "". simpl. rewrite string_app_nil_r. reflexivity.
  - right. exists u. split; [exact Hu|]. exists "", "". simpl.
    rewrite string_app_nil_r. reflexivity.
Qed.

Lemma search_finds_what_is_shown_witness :
  let od := OrderDetails.mk "10:00" "2024-01-02" "Order Confirmed" 30 "Cash"
              None None "2024-01-01" None None in
  let o := Order.mk "Xk29fQp7Lm" "u1" (Some (UserDetails.mk "Ana" "Cruz")) od []
             (Some "orders/Xk29fQp7Lm") in
  let o' := Order.mk "Zz81aaB2cd" "u2" None od [] (Some "orders/Zz81aaB2cd") in
  In o (search [o'; o] "XK29FQ").
Proof.
  cbv zeta.
  refine (proj1 (search_finds_what_is_shown _ _ "XK29FQ" _ _ _)).
  - right. left. reflexivity.
  - split; [|intros u [= <-]]; ascii_text.
  - left. same_text.
Defined.

(** X14. Typing more never adds rows, on ASCII text: for orders with ASCII
    ids and customer names and an ASCII term, an order found for the term
    is found for every part of that term, so the results for a longer term
    are among the results for each of its pieces; and searching within the
    results of a search for the same term changes nothing. *)
Theorem search_narrows (orderList : list Order.t) (pre part post : string) :
  Forall asciiOrder orderList ->
  asciiOnly pre -> asciiOnly part -> asciiOnly post ->
  (forall o, In o (search orderList (pre +:+ part +:+ post)) ->
             In o (search orderList part)) /\
  search (search orderList part) part = search orderList part.
Proof.
  intros _ _ _ _. split.
  - intros o Hin. unfold search in *. apply filter_In in Hin as [Hin Hm].
    apply filter_In. split; [exact Hin|].
    apply matchesSearch_spec in Hm. apply matchesSearch_spec.
    assert (Hsub : forall s, containsNoCase s (pre +:+ part +:+ post) ->
                             containsNoCase s part).
    { intros s (a & b & Hs). unfold containsNoCase.
      rewrite !toLowerCase_app in Hs.
      exists (a +:+ toLowerCase pre), (toLowerCase post +:+ b).
      rewrite Hs, !string_app_assoc. reflexivity. }
    destruct Hm as [Hm|(u & Hu & Hm)]; [left | right; exists u]; auto.
  - unfold search. induction orderList as [|o l IH]; [reflexivity|].
    simpl. destruct (matchesSearch part o) eqn:Hm; [|exact IH].
    simpl. rewrite Hm, IH. reflexivity.
Qed.

Lemma search_narrows_witness :
  let od := OrderDetails.mk "10:00" "2024-01-02" "Order Confirmed" 30 "Cash"
              None None "2024-01-01" None None in
  let o := Order.mk "Xk29fQp7Lm" "u1" (Some (UserDetails.mk "Ana" "Cruz")) od []
             (Some "orders/Xk29fQp7Lm") in
  search (search [o] "a cr") "a cr" = search [o] "a cr".
Proof.
  cbv zeta.
  refine (proj2 (search_narrows _ "an" "a cr" "uz" _ _ _ _)).
  - constructor; [|constructor].
    split; [|intros u [= <-]]; ascii_text.
  - ascii_text.
  - ascii_text.
  - ascii_text.
Defined.

(** ** The projection entry of an order *)



(** X16. Saves of two different orders do not interfere: whichever of the
    two is saved first, every order id ends with the same projection
    entries. *)
Theorem saveTrackingOrder_commute
    (db : Db) (o1 o2 : Order.t) (now1 now2 : Date) (t1 t2 : Z)
    (pos1 pos2 pos1' pos2' : nat) (id : string) :
  Order.id o1 <> Order.id o2 ->
  entriesOf (saveTrackingOrder (saveTrackingOrder db o1 now1 t1 pos1)
               o2 now2 t2 pos2) id =
  entriesOf (saveTrackingOrder (saveTrackingOrder db o2 now2 t2 pos2')
               o1 now1 t1 pos1') id.
Proof.
  intros Hne.
  destruct (String.eqb_spec id (Order.id o1)) as [->|H1].
  - rewrite entriesOf_save_other by exact Hne.
    rewrite !entriesOf_save, entriesOf_save_other by exact Hne. reflexivity.
  - destruct (String.eqb_spec id (Order.id o2)) as [->|H2].
    + rewrite entriesOf_save, (entriesOf_save_other _ o1) by exact H1.
      rewrite (entriesOf_save_other _ o1) by exact H1.
      rewrite entriesOf_save. reflexivity.
    + rewrite !entriesOf_save_other by assumption. reflexivity.
Qed.

Lemma saveTrackingOrder_commute_witness :
  let od := OrderDetails.mk "10:00" "2024-01-02" "Order Confirmed" 30 "Cash"
              None None "2024-01-01" None None in
  let o1 := Order.mk "o1" "u1" None od [] (Some "orders/o1") in
  let o2 := Order.mk "o2" "u2" None od [] (Some "orders/o2") in
  let db := mkDb ∅ [] [] [] [] in
  let d := mkDate 5 "T5" in
  entriesOf (saveTrackingOrder (saveTrackingOrder db o1 d 6 0) o2 d 7 0) "o1" =
  entriesOf (saveTrackingOrder (saveTrackingOrder db o2 d 7 0) o1 d 6 0) "o1".
Proof.
  cbv zeta. apply saveTrackingOrder_commute. discriminate.
Defined.

(** ** The earlier variant of the page *)

Lemma stripPrefix_Some (p r key : string) :
  stripPrefix p r = Some key -> r = p +:+ key.
Proof.
  revert r; induction p as [|a p IH]; intros r H; simpl in H.
  - injection H as ->. reflexivity.
  - destruct r as [|b r]; [discriminate|].
    destruct (Ascii.eqb_spec a b) as [->|]; [|discriminate].
    exact (f_equal (String b) (IH r H)).
Qed.

(** X17. The earlier [handleStatusUpdate] touches nothing but the order
    document its reference points to, and there only the status and the
    update timestamp: whatever the target status, "Ready for Pickup" and
    "Completed" included, stock records, stock history, the sales ledger
    and the projection stay as they were, and no order document is created
    or deleted. Either the whole store is unchanged, or the order found
    under the id refers to an existing document, which gets the new status
    and update timestamp and keeps every other field, its completion
    timestamp included, while every other order document is as before. *)
Theorem legacy_updates_status_only
    (orderList : list Order.t) (db : Db) (orderId newStatus : string) (now : Date) :
  let db' := fst (Legacy.handleStatusUpdate orderList db orderId newStatus now) in
  stocks db' = stocks db /\
  stockHistory db' = stockHistory db /\
  sales db' = sales db /\
  tracking_orders db' = tracking_orders db /\
  dom (orders db') = dom (orders db) /\
  (db' = db \/
   exists order key doc,
     findOrder orderList orderId = Some order /\
     Order.ref order = Some (docRef key) /\
     orders db !! key = Some doc /\
     orders db' !! key =
       Some (setOrderFields newStatus (toISOString now) None doc) /\
     (forall other, other <> key -> orders db' !! other = orders db !! other) /\
     OrderDoc.userId (setOrderFields newStatus (toISOString now) None doc) =
       OrderDoc.userId doc /\
     OrderDoc.items (setOrderFields newStatus (toISOString now) None doc) =
       OrderDoc.items doc /\
     OrderDetails.completedAt
       (OrderDoc.orderDetails (setOrderFields newStatus (toISOString now) None doc)) =
       OrderDetails.completedAt (OrderDoc.orderDetails doc) /\
     OrderDetails.status
       (OrderDoc.orderDetails (setOrderFields newStatus (toISOString now) None doc)) =
       newStatus /\
     OrderDetails.updatedAt
       (OrderDoc.orderDetails (setOrderFields newStatus (toISOString now) None doc)) =
       Some (toISOString now) /\
     OrderDetails.totalAmount
       (OrderDoc.orderDetails (setOrderFields newStatus (toISOString now) None doc)) =
       OrderDetails.totalAmount (OrderDoc.orderDetails doc) /\
     OrderDetails.paymentMethod
       (OrderDoc.orderDetails (setOrderFields newStatus (toISOString now) None doc)) =
       OrderDetails.paymentMethod (OrderDoc.orderDetails doc) /\
     OrderDetails.paymentStatus
       (OrderDoc.orderDetails (setOrderFields newStatus (toISOString now) None doc)) =
       OrderDetails.paymentStatus (OrderDoc.orderDetails doc) /\
     OrderDetails.gcashReference
       (OrderDoc.orderDetails (setOrderFields newStatus (toISOString now) None doc)) =
       OrderDetails.gcashReference (OrderDoc.orderDetails doc) /\
     OrderDetails.pickupTime
       (OrderDoc.orderDetails (setOrderFields newStatus (toISOString now) None doc)) =
       OrderDetails.pickupTime (OrderDoc.orderDetails doc) /\
     OrderDetails.pickupDate
       (OrderDoc.orderDetails (setOrderFields newStatus (toISOString now) None doc)) =
       OrderDetails.pickupDate (OrderDoc.orderDetails doc) /\
     OrderDetails.createdAt
       (OrderDoc.orderDetails (setOrderFields newStatus (toISOString now) None doc)) =
       OrderDetails.createdAt (OrderDoc.orderDetails doc)).
Proof.
  cbv zeta. unfold Legacy.handleStatusUpdate.
  destruct (findOrder orderList orderId) as [order|]; [|simpl; auto 10].
  destruct (Order.ref order) as [r|] eqn:Hr; [|simpl; auto 10].
  destruct (stripPrefix "orders/" r) as [k|] eqn:Hs; [|simpl; auto 10].
  destruct (orders db !! k) as [d|] eqn:Hk; [|simpl; auto 10].
  apply stripPrefix_Some in Hs. subst r. simpl.
  split; [reflexivity|]. split; [reflexivity|]. split; [reflexivity|].
  split; [reflexivity|]. split; [apply dom_alter_L|].
  right. exists order, k, d.
  split; [reflexivity|]. split; [exact Hr|]. split; [exact Hk|].
  split; [rewrite lookup_alter_eq, Hk; reflexivity|].
  split; [intros other Hne; apply lookup_alter_ne; congruence|].
  repeat split.
Qed.

(** X18. For a target status other than "Ready for Pickup" and
    "Completed", on a listed order whose reference is that of its own,
    existing document, the earlier variant and the transactional one leave
    the same store; the earlier one reports nothing where the later one
    alerts success. *)
Theorem legacy_agrees_on_plain_status
    (orderList : list Order.t) (db : Db) (orderId newStatus : string)
    (now : Date) (order : Order.t) (doc : OrderDoc.t) :
  findOrder orderList orderId = Some order ->
  Order.ref order = Some (docRef orderId) ->
  orders db !! orderId = Some doc ->
  newStatus <> "Ready for Pickup" ->
  newStatus <> "Completed" ->
  fst (Legacy.handleStatusUpdate orderList db orderId newStatus now) =
    fst (handleStatusUpdate orderList db orderId newStatus now) /\
  snd (Legacy.handleStatusUpdate orderList db orderId newStatus now) =
    Legacy.Updated /\
  snd (handleStatusUpdate orderList db orderId newStatus now) =
    Alerted "Order status updated successfully!".
Proof.
  intros Hf Hr Hd H1 H2.
  assert (Hld : loaded orderList db orderId order doc).
  { split; [exact Hf|]. split; [rewrite Hr; eauto | exact Hd]. }
  rewrite (handleStatusUpdate_loaded _ _ _ _ _ order doc Hld).
  rewrite (updateFunction_other _ _ _ _ _ doc Hd H1 H2).
  rewrite successMessage_other by exact H2.
  unfold Legacy.handleStatusUpdate. rewrite Hf, Hr.
  change (stripPrefix "orders/" (docRef orderId)) with (Some orderId).
  cbv beta iota. rewrite Hd. repeat split.
Qed.

Lemma legacy_agrees_on_plain_status_witness :
  let od := OrderDetails.mk "10:00" "2024-01-02" "Order Confirmed" 30 "Cash"
              None None "2024-01-01" None None in
  let o := Order.mk "o1" "u1" None od [] (Some "orders/o1") in
  let db := mkDb {[ "o1" := OrderDoc.mk "u1" od [] ]} [] [] [] [] in
  fst (Legacy.handleStatusUpdate [o] db "o1" "Cancelled" (mkDate 5 "T5")) =
  fst (handleStatusUpdate [o] db "o1" "Cancelled" (mkDate 5 "T5")).
Proof.
  cbv zeta.
  refine (proj1 (legacy_agrees_on_plain_status _ _ "o1" "Cancelled" _
                   (Order.mk "o1" "u1" None _ [] (Some "orders/o1"))
                   (OrderDoc.mk "u1" _ []) _ _ _ _ _));
    first [reflexivity | discriminate].
Defined.
